(** * Client-side authentication store and router

    A shallow embedding of the authentication context (the component
    [AuthProvider] with its hook [useAuth]) and of the router component
    [AppContent] of [src/App.tsx].

    The component is asynchronous, effectful TypeScript.  It is embedded
    as follows.

    - The six [useState] cells of [AuthProvider] form the record
      [Store.t]; every setter call is an explicit write.
    - Everything outside the component (the [supabase] client of
      [lib/supabase], its configuration flag, the moment at which the
      effect cleanup runs, the wall clock) is collected in an
      environment [Env]; all results quantify over it.
    - An [async] function is a computation in the monad [M]: it threads
      the [World] (store, the [mounted] flag of the effect, the number
      of suspensions so far), completes normally or by a throw, and
      emits the list of effects it performed, in program order.
    - A closure created during a render sees the state values of that
      render.  Functions that read state variables therefore take the
      render snapshot as an argument.

    Console output is not modelled. *)

From Stdlib Require Import String List Bool Arith Lia.
Import ListNotations.
Open Scope string_scope.
Open Scope list_scope.

(** ** Data model *)

(** The identity asserted by the provider. *)
Module User.
Record t := mk { id : string; email : string }.
End User.

(** The provider's session.  The provider's type declares [user] as
    always present; the code nevertheless guards every use with
    [session?.user], so absence is representable here. *)
Module Session.
Record t := mk { user : option User.t; access_token : string }.
End Session.

(** Modelled from the spec: the [Profile] row type is declared in
    [lib/supabase], which is not part of the sources at hand.  The spec
    lists the columns id, email, full_name, role and updated_at. *)
Module Profile.
Record t := mk {
  id : string;
  email : string;
  full_name : option string;
  role : string;
  updated_at : string
}.
End Profile.

(** [Partial<Profile>]: every column optional. *)
Module ProfilePatch.
Record t := mk {
  id : option string;
  email : option string;
  full_name : option (option string);
  role : option string;
  updated_at : option string
}.

(** [{ ...updates, updated_at: stamp }] *)
Definition with_updated_at (updates : t) (stamp : string) : t :=
  {| id := id updates; email := email updates;
     full_name := full_name updates; role := role updates;
     updated_at := Some stamp |}.
End ProfilePatch.

(** The row passed to [insert] by [createClient]. *)
Module NewProfile.
Record t := mk {
  id : string;
  email : string;
  full_name : option string;
  role : string
}.
End NewProfile.

(** Error objects returned by the provider inside a response. *)
Module ProviderError.
Record t := mk { code : string; message : string }.
End ProviderError.

(** Values that can be thrown. *)
Inductive Exn :=
| JsError (message : string)          (* new Error(message) *)
| TypeError (message : string)        (* property access on null *)
| Thrown (e : ProviderError.t).       (* throw error, for a provider error object *)

(** A settled promise. *)
Inductive Awaited (R : Type) :=
| Fulfilled (r : R)
| Rejected (e : Exn).
Arguments Fulfilled {R} r.
Arguments Rejected {R} e.

(** Response shapes of the provider methods the component uses. *)
Record GetSessionReply := {
  gs_session : option Session.t;          (* data.session *)
  gs_error : option ProviderError.t       (* error *)
}.

Record SelectReply := {
  sel_data : option Profile.t;
  sel_error : option ProviderError.t
}.

Record SignOutReply := { so_error : option ProviderError.t }.

Record UpdateReply := {
  upd_data : option Profile.t;
  upd_error : option ProviderError.t
}.

Record CreateUserReply := {
  cu_user : option User.t;                (* data.user *)
  cu_error : option ProviderError.t
}.

Record InsertReply := { ins_error : option ProviderError.t }.

(** The [supabase] client: how the provider answers each request.  A
    reply may depend on the moment of the request (the index of the
    suspension) and on its arguments. *)
Record SupabaseClient := {
  (* None: not settled when the 5000 ms timer of the bootstrap fires *)
  getSession : nat -> option (Awaited GetSessionReply);
  select_single : nat -> string -> Awaited SelectReply;
  auth_signOut : nat -> Awaited SignOutReply;
  update_single : nat -> string -> ProfilePatch.t -> Awaited UpdateReply;
  admin_createUser : nat -> string -> string -> option string -> Awaited CreateUserReply;
  insert_profile : nat -> NewProfile.t -> Awaited InsertReply
}.

(** What surrounds the component. *)
Record Env := {
  hasSupabaseConfig : bool;
  supabase : option SupabaseClient;
  (* does the effect cleanup run during the n-th suspension? *)
  teardown_during : nat -> bool;
  (* new Date().toISOString() at the n-th suspension index *)
  now_iso : nat -> string
}.

(** The state cells of [AuthProvider]. *)
Module Store.
Record t := mk {
  user : option User.t;
  profile : option Profile.t;
  session : option Session.t;
  loading : bool;
  error : option string;
  initialized : bool
}.

(** The [useState] initial values: the first render. *)
Definition initial : t :=
  {| user := None; profile := None; session := None;
     loading := true; error := None; initialized := false |}.

Definition set_user v (s : t) : t :=
  mk v (profile s) (session s) (loading s) (error s) (initialized s).
Definition set_profile v (s : t) : t :=
  mk (user s) v (session s) (loading s) (error s) (initialized s).
Definition set_session v (s : t) : t :=
  mk (user s) (profile s) v (loading s) (error s) (initialized s).
Definition set_loading v (s : t) : t :=
  mk (user s) (profile s) (session s) v (error s) (initialized s).
Definition set_error v (s : t) : t :=
  mk (user s) (profile s) (session s) (loading s) v (initialized s).
Definition set_initialized v (s : t) : t :=
  mk (user s) (profile s) (session s) (loading s) (error s) v.
End Store.

(** ** Effects *)

Inductive ProviderCall :=
| CallGetSession
| CallOnAuthStateChange
| CallSignOut
| CallAdminCreateUser (email password : string) (full_name : option string)
| CallSelectProfile (id : string)
| CallUpdateProfile (id : string) (patch : ProfilePatch.t)
| CallInsertProfile (row : NewProfile.t).

Inductive Event :=
| Provider (c : ProviderCall)
| Delay (ms : nat)                        (* await of a setTimeout promise *)
| NavigateAfter (ms : nat) (href : string)  (* setTimeout(() => location.href = href, ms) *)
| Navigate (href : string)                (* window.location.href = href *)
| SetUser (v : option User.t)
| SetProfile (v : option Profile.t)
| SetSession (v : option Session.t)
| SetLoading (v : bool)
| SetError (v : option string)
| SetInitialized (v : bool).

Record World := {
  store : Store.t;
  mounted : bool;       (* the [mounted] variable of the effect *)
  clock : nat           (* suspensions so far *)
}.

(** The world right after the first render, when the effect starts. *)
Definition initialWorld : World :=
  {| store := Store.initial; mounted := true; clock := 0 |}.

Inductive Completion (A : Type) :=
| Normal (a : A)
| Throw (e : Exn).
Arguments Normal {A} a.
Arguments Throw {A} e.

Definition M (A : Type) : Type := World -> Completion A * World * list Event.

Definition ret {A} (a : A) : M A := fun w => (Normal a, w, []).

Definition throw {A} (e : Exn) : M A := fun w => (Throw e, w, []).

Definition bind {A B} (m : M A) (k : A -> M B) : M B := fun w =>
  match m w with
  | (Normal a, w1, ev1) =>
      match k a w1 with
      | (c, w2, ev2) => (c, w2, ev1 ++ ev2)
      end
  | (Throw e, w1, ev1) => (Throw e, w1, ev1)
  end.

(** [try { m } catch (e) { h e }] *)
Definition try_catch {A} (m : M A) (h : Exn -> M A) : M A := fun w =>
  match m w with
  | (Normal a, w1, ev1) => (Normal a, w1, ev1)
  | (Throw e, w1, ev1) =>
      match h e w1 with
      | (c, w2, ev2) => (c, w2, ev1 ++ ev2)
      end
  end.

(** [try { m } finally { f }]: [f] always runs; a throw of [f] replaces
    the completion of [m]. *)
Definition try_finally {A} (m : M A) (f : M unit) : M A := fun w =>
  match m w with
  | (c, w1, ev1) =>
      match f w1 with
      | (Normal _, w2, ev2) => (c, w2, ev1 ++ ev2)
      | (Throw e, w2, ev2) => (Throw e, w2, ev1 ++ ev2)
      end
  end.

Declare Scope js_scope.
Delimit Scope js_scope with js.
Notation "x <- c1 ;; c2" := (bind c1 (fun x => c2))
  (at level 61, c1 at next level, right associativity) : js_scope.
Notation "c1 ;; c2" := (bind c1 (fun _ => c2))
  (at level 61, right associativity) : js_scope.
Open Scope js_scope.

Definition emit (e : Event) : M unit := fun w => (Normal tt, w, [e]).

Definition write (e : Event) (f : Store.t -> Store.t) : M unit := fun w =>
  (Normal tt, {| store := f (store w); mounted := mounted w; clock := clock w |}, [e]).

Definition setUser v := write (SetUser v) (Store.set_user v).
Definition setProfile v := write (SetProfile v) (Store.set_profile v).
Definition setSession v := write (SetSession v) (Store.set_session v).
Definition setLoading v := write (SetLoading v) (Store.set_loading v).
Definition setError v := write (SetError v) (Store.set_error v).
Definition setInitialized v := write (SetInitialized v) (Store.set_initialized v).

Definition get_mounted : M bool := fun w => (Normal (mounted w), w, []).

(** [if (mounted) { m }] *)
Definition when_mounted (m : M unit) : M unit :=
  b <- get_mounted ;; if b then m else ret tt.

(** [session?.user] *)
Definition session_user (session : option Session.t) : option User.t :=
  match session with
  | Some s => Session.user s
  | None => None
  end.

(** ** The context value and its consumers *)

(** [AuthContextType]: what [AuthProvider] hands to the tree below it. *)
Module AuthContextType.
Record t := mk {
  user : option User.t;
  profile : option Profile.t;
  session : option Session.t;
  loading : bool;
  error : option string;
  signOut : M unit;
  updateProfile : ProfilePatch.t -> M unit;
  createClient : string -> string -> option string -> M unit
}.
End AuthContextType.

(** [useContext(ctx)]: the value of the nearest enclosing provider of the
    context, or the default given to [createContext] when no provider
    encloses the caller.  [enclosing] lists the values of the enclosing
    providers, nearest first. *)
Definition useContext {T} (default : T) (enclosing : list T) : T :=
  match enclosing with
  | nearest :: _ => nearest
  | [] => default
  end.

(** [createContext<AuthContextType | undefined>(undefined)]: the default. *)
Definition AuthContext_default : option AuthContextType.t := None.

Definition useAuth (enclosing : list (option AuthContextType.t))
  : Completion AuthContextType.t :=
  match useContext AuthContext_default enclosing with
  | None => Throw (JsError "useAuth must be used within an AuthProvider")
  | Some context => Normal context
  end.

(** What [AppContent] renders. *)
Inductive View :=
| LoadingScreen                       (* "Loading your workspace..." *)
| AuthForm
| ProfileSetupScreen (email : string) (* "Setting up your profile...", "Logged in as: email" *)
| AdminPortal
| ClientPortal.

Definition AppContent (enclosing : list (option AuthContextType.t))
  : Completion View :=
  match useAuth enclosing with
  | Throw e => Throw e
  | Normal ctx =>
      if AuthContextType.loading ctx then Normal LoadingScreen
      else
        match AuthContextType.user ctx with
        | None => Normal AuthForm
        | Some user =>
            match AuthContextType.profile ctx with
            | None => Normal (ProfileSetupScreen (User.email user))
            | Some profile =>
                if Profile.role profile =? "admin"
                then Normal AdminPortal
                else Normal ClientPortal
            end
        end
  end.

(** ** The provider component *)

Section AuthProvider.

Variable env : Env.

(** The world after a suspension: time has passed, and the effect
    cleanup may have run meanwhile ([mounted = false]). *)
Definition suspend (w : World) : World :=
  {| store := store w;
     mounted := mounted w && negb (teardown_during env (clock w));
     clock := S (clock w) |}.

(** [await request]: the request is issued, the caller suspends, and
    resumes with the response or with the rejection thrown. *)
Definition await {R} (c : ProviderCall) (settle : nat -> Awaited R) : M R :=
  fun w =>
    (match settle (clock w) with
     | Fulfilled r => Normal r
     | Rejected e => Throw e
     end, suspend w, [Provider c]).

(** [await new Promise(resolve => setTimeout(resolve, ms))] *)
Definition sleep (ms : nat) : M unit :=
  fun w => (Normal tt, suspend w, [Delay ms]).

(** [new Date().toISOString()] *)
Definition now : M string :=
  fun w => (Normal (now_iso env (clock w)), w, []).

Definition clearAuthState : M unit :=
  setUser None ;; setProfile None ;; setSession None ;; setError None.

(** The [try] block of one iteration of the loop of [fetchProfile].
    With neither an error nor a row, evaluating [data.role] for the log
    line throws. *)
Definition fetchProfile_attempt (sb : SupabaseClient) (userId : string)
  : M (option Profile.t) :=
  reply <- await (CallSelectProfile userId)
                 (fun n => select_single sb n userId) ;;
  match sel_error reply with
  | Some error =>
      if ProviderError.code error =? "PGRST116" then ret None
      else throw (Thrown error)
  | None =>
      match sel_data reply with
      | Some data => ret (Some data)
      | None => throw (TypeError "Cannot read properties of null (reading 'role')")
      end
  end.

(** [for (let attempt = 1; attempt <= retries; attempt++)], entered with
    [attempt] and [remaining = retries + 1 - attempt] iterations to go.
    With none left the loop is over and the [return null] after it is
    reached. *)
Fixpoint fetchProfile_loop (sb : SupabaseClient) (userId : string)
    (retries remaining attempt : nat) : M (option Profile.t) :=
  match remaining with
  | 0 => ret None
  | S remaining' =>
      try_catch (fetchProfile_attempt sb userId)
        (fun _ =>
           if (attempt =? retries)%nat then ret None
           else
             sleep (2 ^ attempt * 500) ;;
             fetchProfile_loop sb userId retries remaining' (S attempt))
  end.

Definition fetchProfile (userId : string) (retries : nat)
  : M (option Profile.t) :=
  match supabase env with
  | None => ret None
  | Some sb => fetchProfile_loop sb userId retries retries 1
  end.

(** The default of the parameter [retries]; no call site passes another. *)
Definition default_retries : nat := 3.

(** [Promise.race([sessionPromise, timeoutPromise])] *)
Definition race_timeout {R} (p : option (Awaited R)) : Awaited R :=
  match p with
  | Some settled => settled
  | None => Rejected (JsError "Session fetch timeout")
  end.

Definition initializeAuth : M unit :=
  match hasSupabaseConfig env, supabase env with
  | true, Some sb =>
      try_catch
        (reply <- await CallGetSession (fun n => race_timeout (getSession sb n)) ;;
         still <- get_mounted ;;
         if negb still then ret tt
         else
           match gs_error reply with
           | Some _ =>
               clearAuthState ;; setLoading false ;; setInitialized true
           | None =>
               (match session_user (gs_session reply) with
                | Some user =>
                    setSession (gs_session reply) ;;
                    setUser (Some user) ;;
                    userProfile <- fetchProfile (User.id user) default_retries ;;
                    when_mounted (setProfile userProfile)
                | None => clearAuthState
                end) ;;
               when_mounted (setLoading false ;; setInitialized true)
           end)
        (fun _ =>
           when_mounted
             (clearAuthState ;; setLoading false ;; setInitialized true))
  | _, _ =>
      when_mounted
        (setError (Some "Supabase is not configured. Please connect to Supabase.") ;;
         setLoading false ;;
         setInitialized true)
  end.

(** [setupAuthListener]: registers the callback with the provider. *)
Definition setupAuthListener : M unit :=
  match supabase env with
  | None => ret tt
  | Some _ => emit (Provider CallOnAuthStateChange)
  end.

(** The callback given to [onAuthStateChange], as created by the render
    whose state values are [r]: the identifiers [profile] and
    [initialized] in its body denote the values of that render. *)
Definition onAuthStateChange_callback (r : Store.t)
    (event : string) (session : option Session.t) : M unit :=
  live <- get_mounted ;;
  if negb live then ret tt
  else
    try_finally
      (try_catch
         (if (event =? "SIGNED_IN") || (event =? "TOKEN_REFRESHED") then
            match session_user session with
            | Some user =>
                setSession session ;;
                setUser (Some user) ;;
                setError None ;;
                userProfile <- fetchProfile (User.id user) default_retries ;;
                when_mounted (setProfile userProfile)
            | None => ret tt
            end
          else if event =? "SIGNED_OUT" then clearAuthState
          else if event =? "USER_UPDATED" then
            match session_user session with
            | Some user => setSession session ;; setUser (Some user)
            | None => ret tt
            end
          else
            match session_user session with
            | Some user =>
                setSession session ;;
                setUser (Some user) ;;
                if match Store.profile r with
                   | None => true
                   | Some profile => negb (Profile.id profile =? User.id user)
                   end
                then
                  userProfile <- fetchProfile (User.id user) default_retries ;;
                  when_mounted (setProfile userProfile)
                else ret tt
            | None => clearAuthState
            end)
         (fun _ =>
            when_mounted (setError (Some "Authentication error occurred"))))
      (live' <- get_mounted ;;
       if live' && negb (Store.initialized r)
       then setLoading false ;; setInitialized true
       else ret tt).

(** The effect has an empty dependency array: it runs once, after the
    first render, and the callback it registers is the one of that
    render for the whole life of the component. *)
Definition authListener : string -> option Session.t -> M unit :=
  onAuthStateChange_callback Store.initial.

Definition signOut : M unit :=
  match supabase env with
  | None => ret tt
  | Some sb =>
      try_finally
        (try_catch
           (setLoading true ;;
            _ <- await CallSignOut (auth_signOut sb) ;;
            clearAuthState ;;
            emit (NavigateAfter 100 "/"))
           (fun _ => emit (Navigate "/")))
        (setLoading false)
  end.

Definition updateProfile (r : Store.t) (updates : ProfilePatch.t) : M unit :=
  match Store.user r, supabase env with
  | Some user, Some sb =>
      try_catch
        (stamp <- now ;;
         let patch := ProfilePatch.with_updated_at updates stamp in
         reply <- await (CallUpdateProfile (User.id user) patch)
                        (fun n => update_single sb n (User.id user) patch) ;;
         match upd_error reply with
         | Some error => throw (Thrown error)
         | None => setProfile (upd_data reply)
         end)
        (fun error => throw error)
  | _, _ => ret tt
  end.

Definition createClient (email password : string) (fullName : option string)
  : M unit :=
  match supabase env with
  | None => throw (JsError "Supabase not configured")
  | Some sb =>
      try_catch
        (reply <- await (CallAdminCreateUser email password fullName)
                        (fun n => admin_createUser sb n email password fullName) ;;
         match cu_error reply with
         | Some error => throw (Thrown error)
         | None =>
             match cu_user reply with
             | None => throw (TypeError "Cannot read properties of null (reading 'id')")
             | Some created =>
                 let row := {| NewProfile.id := User.id created;
                               NewProfile.email := email;
                               NewProfile.full_name := fullName;
                               NewProfile.role := "client" |} in
                 inserted <- await (CallInsertProfile row)
                                   (fun n => insert_profile sb n row) ;;
                 match ins_error inserted with
                 | Some profileError => throw (Thrown profileError)
                 | None => ret tt
                 end
             end
         end)
        (fun error => throw error)
  end.

(** The [value] object of the render with state [r]. *)
Definition AuthProvider_value (r : Store.t) : AuthContextType.t :=
  {| AuthContextType.user := Store.user r;
     AuthContextType.profile := Store.profile r;
     AuthContextType.session := Store.session r;
     AuthContextType.loading := Store.loading r;
     AuthContextType.error := Store.error r;
     AuthContextType.signOut := signOut;
     AuthContextType.updateProfile := updateProfile r;
     AuthContextType.createClient := createClient |}.

End AuthProvider.

(** ** Concrete environments

    Small providers and stores on which the results below are run. *)

Module Demo.

Definition alice : User.t :=
  {| User.id := "u1"; User.email := "alice@example.com" |}.

Definition alice_session : Session.t :=
  {| Session.user := Some alice; Session.access_token := "token-1" |}.

Definition alice_profile : Profile.t :=
  {| Profile.id := "u1"; Profile.email := "alice@example.com";
     Profile.full_name := Some "Alice"; Profile.role := "client";
     Profile.updated_at := "2024-01-01T00:00:00.000Z" |}.

Definition root_profile : Profile.t :=
  {| Profile.id := "u0"; Profile.email := "root@example.com";
     Profile.full_name := None; Profile.role := "admin";
     Profile.updated_at := "2024-01-01T00:00:00.000Z" |}.

Definition rename_patch : ProfilePatch.t :=
  {| ProfilePatch.id := None; ProfilePatch.email := None;
     ProfilePatch.full_name := Some (Some "Alice B.");
     ProfilePatch.role := None; ProfilePatch.updated_at := None |}.

Definition not_found : ProviderError.t :=
  {| ProviderError.code := "PGRST116";
     ProviderError.message := "JSON object requested, multiple (or no) rows returned" |}.

Definition unavailable : ProviderError.t :=
  {| ProviderError.code := "503"; ProviderError.message := "Service unavailable" |}.

Definition duplicate_key : ProviderError.t :=
  {| ProviderError.code := "23505";
     ProviderError.message := "duplicate key value violates unique constraint" |}.

(** A provider on which everything succeeds: alice is signed in and her
    profile row exists. *)
Definition healthy : SupabaseClient :=
  {| getSession := fun _ =>
       Some (Fulfilled {| gs_session := Some alice_session; gs_error := None |});
     select_single := fun _ _ =>
       Fulfilled {| sel_data := Some alice_profile; sel_error := None |};
     auth_signOut := fun _ => Fulfilled {| so_error := None |};
     update_single := fun _ _ _ =>
       Fulfilled {| upd_data := Some alice_profile; upd_error := None |};
     admin_createUser := fun _ _ _ _ =>
       Fulfilled {| cu_user := Some alice; cu_error := None |};
     insert_profile := fun _ _ => Fulfilled {| ins_error := None |} |}.

(** A provider whose database and sign-out endpoint answer with errors,
    while account creation still works. *)
Definition degraded : SupabaseClient :=
  {| getSession := fun _ =>
       Some (Fulfilled {| gs_session := Some alice_session; gs_error := None |});
     select_single := fun _ _ =>
       Fulfilled {| sel_data := None; sel_error := Some unavailable |};
     auth_signOut := fun _ => Fulfilled {| so_error := Some unavailable |};
     update_single := fun _ _ _ =>
       Fulfilled {| upd_data := None; upd_error := Some unavailable |};
     admin_createUser := fun _ email _ _ =>
       Fulfilled {| cu_user := Some {| User.id := "u2"; User.email := email |};
                    cu_error := None |};
     insert_profile := fun _ _ =>
       Fulfilled {| ins_error := Some duplicate_key |} |}.

(** A provider that knows the account but has no profile row for it. *)
Definition unprovisioned : SupabaseClient :=
  {| getSession := getSession healthy;
     select_single := fun _ _ =>
       Fulfilled {| sel_data := None; sel_error := Some not_found |};
     auth_signOut := auth_signOut healthy;
     update_single := update_single healthy;
     admin_createUser := admin_createUser healthy;
     insert_profile := insert_profile healthy |}.

(** A provider whose first two profile reads fail and whose third read
    (the suspensions of [fetchProfile] alternate reads and delays) finds
    no row. *)
Definition flaky : SupabaseClient :=
  {| getSession := getSession healthy;
     select_single := fun n _ =>
       if (n <? 4)%nat
       then Fulfilled {| sel_data := None; sel_error := Some unavailable |}
       else Fulfilled {| sel_data := None; sel_error := Some not_found |};
     auth_signOut := auth_signOut healthy;
     update_single := update_single healthy;
     admin_createUser := admin_createUser healthy;
     insert_profile := insert_profile healthy |}.

(** A provider whose every request is rejected. *)
Definition unreachable : SupabaseClient :=
  {| getSession := fun _ => Some (Rejected (JsError "Failed to fetch"));
     select_single := fun _ _ => Rejected (JsError "Failed to fetch");
     auth_signOut := fun _ => Rejected (JsError "Failed to fetch");
     update_single := fun _ _ _ => Rejected (JsError "Failed to fetch");
     admin_createUser := fun _ _ _ _ => Rejected (JsError "Failed to fetch");
     insert_profile := fun _ _ => Rejected (JsError "Failed to fetch") |}.

Definition env_with (sb : SupabaseClient) : Env :=
  {| hasSupabaseConfig := true;
     supabase := Some sb;
     teardown_during := fun _ => false;
     now_iso := fun _ => "2024-06-01T12:00:00.000Z" |}.

Definition env_unconfigured : Env :=
  {| hasSupabaseConfig := false;
     supabase := None;
     teardown_during := fun _ => false;
     now_iso := fun _ => "2024-06-01T12:00:00.000Z" |}.

(** The store once alice is signed in and her profile is loaded. *)
Definition signed_in : Store.t :=
  {| Store.user := Some alice; Store.profile := Some alice_profile;
     Store.session := Some alice_session; Store.loading := false;
     Store.error := None; Store.initialized := true |}.

Definition signed_in_world : World :=
  {| store := signed_in; mounted := true; clock := 7 |}.

End Demo.

(** ** Observations on runs *)

(** The provider methods invoked during a run, in order. *)
Fixpoint provider_calls (events : list Event) : list ProviderCall :=
  match events with
  | [] => []
  | Provider c :: rest => c :: provider_calls rest
  | _ :: rest => provider_calls rest
  end.

(** The values given to [setLoading] during a run, in order. *)
Fixpoint loading_writes (events : list Event) : list bool :=
  match events with
  | [] => []
  | SetLoading v :: rest => v :: loading_writes rest
  | _ :: rest => loading_writes rest
  end.

(** Does the event touch a state cell? *)
Definition is_state_write (e : Event) : bool :=
  match e with
  | SetUser _ | SetProfile _ | SetSession _
  | SetLoading _ | SetError _ | SetInitialized _ => true
  | _ => false
  end.

(** Does the event leave the page for [href], at once or by a timer? *)
Definition navigates_to (href : string) (e : Event) : bool :=
  match e with
  | Navigate target => target =? href
  | NavigateAfter _ target => target =? href
  | _ => false
  end.

(** A profile read answered "no such row". *)
Definition is_not_found (a : Awaited SelectReply) : bool :=
  match a with
  | Fulfilled reply =>
      match sel_error reply with
      | Some e => ProviderError.code e =? "PGRST116"
      | None => false
      end
  | Rejected _ => false
  end.

(** The row a profile read delivers, when it succeeds. *)
Definition fetched_row (a : Awaited SelectReply) : option Profile.t :=
  match a with
  | Fulfilled reply =>
      match sel_error reply with
      | Some _ => None
      | None => sel_data reply
      end
  | Rejected _ => None
  end.

(** A profile read that neither succeeded nor reported "no such row". *)
Definition is_other_failure (a : Awaited SelectReply) : bool :=
  negb (is_not_found a) &&
  match fetched_row a with
  | Some _ => false
  | None => true
  end.

(** The error with which a profile insert fails, if it does. *)
Definition insert_failure (a : Awaited InsertReply) : option Exn :=
  match a with
  | Fulfilled reply =>
      match ins_error reply with
      | Some e => Some (Thrown e)
      | None => None
      end
  | Rejected e => Some e
  end.

(** The events a profile fetch for [userId] can emit: reads of that
    profile, and delays. *)
Definition fetch_event (userId : string) (e : Event) : Prop :=
  e = Provider (CallSelectProfile userId) \/ exists ms, e = Delay ms.

(** Sign-out read as clearing in every case: after the call a
    navigation to the root path has been issued and user, profile,
    session and error are null, whatever the provider did. *)
Definition signOut_clears_and_navigates (env : Env) (w : World) : Prop :=
  let '(_, w', events) := signOut env w in
  existsb (navigates_to "/") events = true
  /\ Store.user (store w') = None
  /\ Store.profile (store w') = None
  /\ Store.session (store w') = None
  /\ Store.error (store w') = None.

(** ** Lifetimes

    What happens to a mounted provider component: the bootstrap, then
    sign-outs requested by the user and events delivered by the
    provider, each handled to completion before the next. *)

Inductive Action :=
| RequestSignOut
| Deliver (event : string) (session : option Session.t).

Definition perform (env : Env) (a : Action) : M unit :=
  match a with
  | RequestSignOut => signOut env
  | Deliver event session => authListener env event session
  end.

Fixpoint perform_all (env : Env) (actions : list Action) : M unit :=
  match actions with
  | [] => ret tt
  | a :: rest => perform env a ;; perform_all env rest
  end.

Definition lifetime (env : Env) (actions : list Action) : M unit :=
  initializeAuth env ;; perform_all env actions.

(** The write-once reading of the loading flag: over a whole lifetime it
    is written exactly once, with [false]. *)
Definition loading_settles_once (env : Env) (actions : list Action) : Prop :=
  let '(_, _, events) := lifetime env actions initialWorld in
  loading_writes events = [false].

(** ** The application *)

(** [App] of [src/App.tsx]: one [AuthProvider] around the router, whose
    only route, ["/*"], matches every path and renders [AppContent].
    [r] is the state of the provider at the render. *)
Definition App (env : Env) (r : Store.t) : Completion View :=
  AppContent [Some (AuthProvider_value env r)].

(** ** Further observations *)


(** The session request of the bootstrap delivers no user: the timer
    won the race, the request was rejected, the response carries an
    error, or it carries no session with a user. *)
Definition delivers_no_user (p : option (Awaited GetSessionReply)) : bool :=
  match p with
  | None => true
  | Some (Rejected _) => true
  | Some (Fulfilled reply) =>
      match gs_error reply with
      | Some _ => true
      | None =>
          match session_user (gs_session reply) with
          | Some _ => false
          | None => true
          end
      end
  end.

(** Does the event put a message into the error cell? *)
Definition surfaces_error (e : Event) : bool :=
  match e with
  | SetError (Some _) => true
  | _ => false
  end.

(** The error with which a profile update fails, if it does. *)
Definition update_failure (a : Awaited UpdateReply) : option Exn :=
  match a with
  | Fulfilled reply =>
      match upd_error reply with
      | Some e => Some (Thrown e)
      | None => None
      end
  | Rejected e => Some e
  end.

(** The error with which account creation fails, if it reports one. *)
Definition createUser_failure (a : Awaited CreateUserReply) : option Exn :=
  match a with
  | Fulfilled reply =>
      match cu_error reply with
      | Some e => Some (Thrown e)
      | None => None
      end
  | Rejected e => Some e
  end.

(** The user cell holds the user of the session cell. *)
Definition session_coherent (s : Store.t) : Prop :=
  Store.user s = session_user (Store.session s).

(** ** Histories

    Everything that can be asked of a provider component: the bootstrap,
    an event from the provider, and the three operations of the context
    value, taken from the latest render.  Each is handled to completion
    before the next; what an operation throws goes to its caller and
    the history goes on. *)

Inductive Operation :=
| OpBootstrap
| OpEvent (event : string) (session : option Session.t)
| OpSignOut
| OpUpdateProfile (updates : ProfilePatch.t)
| OpCreateClient (email password : string) (fullName : option string).

Definition run_operation (env : Env) (op : Operation) : M unit :=
  fun w =>
    match op with
    | OpBootstrap => initializeAuth env w
    | OpEvent event session => authListener env event session w
    | OpSignOut =>
        AuthContextType.signOut (AuthProvider_value env (store w)) w
    | OpUpdateProfile updates =>
        AuthContextType.updateProfile (AuthProvider_value env (store w)) updates w
    | OpCreateClient email password fullName =>
        AuthContextType.createClient (AuthProvider_value env (store w))
          email password fullName w
    end.

Fixpoint run_operations (env : Env) (ops : list Operation) : M unit :=
  match ops with
  | [] => ret tt
  | op :: rest =>
      try_catch (run_operation env op) (fun _ => ret tt) ;;
      run_operations env rest
  end.

(** ** Further concrete environments *)

Module Scenario.

Definition root : User.t :=
  {| User.id := "u0"; User.email := "root@example.com" |}.

Definition root_session : Session.t :=
  {| Session.user := Some root; Session.access_token := "token-0" |}.

(** The administrator is signed in and has a profile row. *)
Definition admin_provider : SupabaseClient :=
  {| getSession := fun _ =>
       Some (Fulfilled {| gs_session := Some root_session; gs_error := None |});
     select_single := fun _ _ =>
       Fulfilled {| sel_data := Some Demo.root_profile; sel_error := None |};
     auth_signOut := auth_signOut Demo.healthy;
     update_single := update_single Demo.healthy;
     admin_createUser := fun _ email _ _ =>
       Fulfilled {| cu_user := Some {| User.id := "u2"; User.email := email |};
                    cu_error := None |};
     insert_profile := insert_profile Demo.healthy |}.

(** The session request does not settle within five seconds. *)
Definition slow_provider : SupabaseClient :=
  {| getSession := fun _ => None;
     select_single := select_single Demo.healthy;
     auth_signOut := auth_signOut Demo.healthy;
     update_single := update_single Demo.healthy;
     admin_createUser := admin_createUser Demo.healthy;
     insert_profile := insert_profile Demo.healthy |}.

(** The first profile read fails, the next one delivers the row. *)
Definition recovering : SupabaseClient :=
  {| getSession := getSession Demo.healthy;
     select_single := fun n _ =>
       if (n <? 2)%nat
       then Fulfilled {| sel_data := None; sel_error := Some Demo.unavailable |}
       else Fulfilled {| sel_data := Some Demo.alice_profile; sel_error := None |};
     auth_signOut := auth_signOut Demo.healthy;
     update_single := update_single Demo.healthy;
     admin_createUser := admin_createUser Demo.healthy;
     insert_profile := insert_profile Demo.healthy |}.

(** Account creation is refused. *)
Definition refusing : SupabaseClient :=
  {| getSession := getSession Demo.healthy;
     select_single := select_single Demo.healthy;
     auth_signOut := auth_signOut Demo.healthy;
     update_single := update_single Demo.healthy;
     admin_createUser := fun _ _ _ _ =>
       Fulfilled {| cu_user := None; cu_error := Some Demo.duplicate_key |};
     insert_profile := insert_profile Demo.healthy |}.

(** The component is torn down while its first request is in flight. *)
Definition env_torn_down (sb : SupabaseClient) : Env :=
  {| hasSupabaseConfig := true;
     supabase := Some sb;
     teardown_during := fun n => (n =? 0)%nat;
     now_iso := fun _ => "2024-06-01T12:00:00.000Z" |}.

Definition stale_patch : ProfilePatch.t :=
  {| ProfilePatch.id := None; ProfilePatch.email := None;
     ProfilePatch.full_name := Some (Some "Alice B.");
     ProfilePatch.role := None;
     ProfilePatch.updated_at := Some "1999-01-01T00:00:00.000Z" |}.

Definition busy_day : list Operation :=
  [OpBootstrap;
   OpEvent "SIGNED_IN" (Some Demo.alice_session);
   OpUpdateProfile stale_patch;
   OpCreateClient "bob@example.com" "s3cret" (Some "Bob");
   OpEvent "USER_UPDATED" (Some root_session);
   OpSignOut;
   OpEvent "SIGNED_OUT" None].

End Scenario.

(** * Properties *)

(** ** Router *)

(** C1.  The router renders exactly one view, decided by [loading],
    [user] and [profile] alone, in this order of priority: the loading
    screen while [loading]; else the login form when there is no user;
    else the profile set-up screen when there is no profile; else the
    admin view when the role of the profile is ["admin"]; else the
    client view. *)
Theorem AppContent_priority :
  forall (ctx : AuthContextType.t) (outer : list (option AuthContextType.t)),
    exists view : View,
      AppContent (Some ctx :: outer) = Normal view
      /\ (AuthContextType.loading ctx = true -> view = LoadingScreen)
      /\ (AuthContextType.loading ctx = false ->
          AuthContextType.user ctx = None -> view = AuthForm)
      /\ (forall user,
          AuthContextType.loading ctx = false ->
          AuthContextType.user ctx = Some user ->
          AuthContextType.profile ctx = None ->
          view = ProfileSetupScreen (User.email user))
      /\ (forall user profile,
          AuthContextType.loading ctx = false ->
          AuthContextType.user ctx = Some user ->
          AuthContextType.profile ctx = Some profile ->
          Profile.role profile = "admin" -> view = AdminPortal)
      /\ (forall user profile,
          AuthContextType.loading ctx = false ->
          AuthContextType.user ctx = Some user ->
          AuthContextType.profile ctx = Some profile ->
          Profile.role profile <> "admin" -> view = ClientPortal)
      /\ (forall ctx' outer',
          AuthContextType.loading ctx' = AuthContextType.loading ctx ->
          AuthContextType.user ctx' = AuthContextType.user ctx ->
          AuthContextType.profile ctx' = AuthContextType.profile ctx ->
          AppContent (Some ctx' :: outer') = Normal view).
Proof.
  intros ctx outer.
  unfold AppContent, useAuth, useContext; simpl.
  destruct (AuthContextType.loading ctx) eqn:Hl.
  { exists LoadingScreen.
    split; [reflexivity|]. repeat (split; [intros; congruence|]).
    intros ctx' outer' -> _ _. reflexivity. }
  destruct (AuthContextType.user ctx) as [u|] eqn:Hu.
  2:{ exists AuthForm.
      split; [reflexivity|]. repeat (split; [intros; congruence|]).
      intros ctx' outer' -> -> _. reflexivity. }
  destruct (AuthContextType.profile ctx) as [p|] eqn:Hp.
  2:{ exists (ProfileSetupScreen (User.email u)).
      split; [reflexivity|]. repeat (split; [intros; congruence|]).
      intros ctx' outer' -> -> ->. reflexivity. }
  destruct (String.eqb_spec (Profile.role p) "admin") as [Hr|Hr].
  - exists AdminPortal.
    split; [reflexivity|]. repeat (split; [intros; congruence|]).
    intros ctx' outer' -> -> ->. rewrite Hr. reflexivity.
  - exists ClientPortal.
    split; [reflexivity|]. repeat (split; [intros; congruence|]).
    intros ctx' outer' -> -> ->.
    destruct (String.eqb_spec (Profile.role p) "admin"); congruence.
Qed.

(** ** The hook *)

(** C10.  Called below no [AuthProvider], [useAuth] throws the error
    ['useAuth must be used within an AuthProvider']; whenever it does
    return, the result is the whole value of the nearest provider. *)
Theorem useAuth_outside_provider_throws :
  useAuth [] = Throw (JsError "useAuth must be used within an AuthProvider")
  /\ (forall enclosing context,
        useAuth enclosing = Normal context ->
        exists outer, enclosing = Some context :: outer).
Proof.
  split; [reflexivity|].
  intros [|[c|] outer] context; unfold useAuth; simpl; intros H;
    try discriminate.
  injection H as ->. now exists outer.
Qed.

Lemma AppContent_priority_witness :
  exists view,
    AppContent [Some (AuthProvider_value (Demo.env_with Demo.healthy) Demo.signed_in)]
      = Normal view
    /\ view = ClientPortal.
Proof.
  destruct (AppContent_priority
              (AuthProvider_value (Demo.env_with Demo.healthy) Demo.signed_in) [])
    as (view & Hrun & _ & _ & _ & _ & Hclient & _).
  exists view. split; [exact Hrun|].
  apply (Hclient Demo.alice Demo.alice_profile);
    [reflexivity | reflexivity | reflexivity | discriminate].
Defined.

Lemma useAuth_outside_provider_throws_witness :
  useAuth [] = Throw (JsError "useAuth must be used within an AuthProvider")
  /\ exists outer,
       [Some (AuthProvider_value Demo.env_unconfigured Store.initial)]
       = Some (AuthProvider_value Demo.env_unconfigured Store.initial) :: outer.
Proof.
  split.
  - exact (proj1 useAuth_outside_provider_throws).
  - apply (proj2 useAuth_outside_provider_throws
             [Some (AuthProvider_value Demo.env_unconfigured Store.initial)]).
    reflexivity.
Defined.

(** ** Bootstrap without configuration *)

(** C2.  Without provider configuration (the flag is off or there is no
    client) the bootstrap completes at once: loading is false, there is
    no user, the error is the configuration message; no provider method
    was invoked, and nothing is left pending (no suspension happened, no
    timer was set), so nothing is tried again. *)
Theorem initializeAuth_unconfigured :
  forall env : Env,
    hasSupabaseConfig env = false \/ supabase env = None ->
    let '(completion, w, events) := initializeAuth env initialWorld in
    completion = Normal tt
    /\ Store.loading (store w) = false
    /\ Store.user (store w) = None
    /\ Store.error (store w)
       = Some "Supabase is not configured. Please connect to Supabase."
    /\ provider_calls events = []
    /\ clock w = 0
    /\ events
       = [SetError (Some "Supabase is not configured. Please connect to Supabase.");
          SetLoading false; SetInitialized true].
Proof.
  intros env Hcfg. unfold initializeAuth.
  destruct (hasSupabaseConfig env) eqn:Hflag;
    destruct (supabase env) as [sb|] eqn:Hsb;
    try (cbn; repeat split; reflexivity).
  destruct Hcfg; discriminate.
Qed.

Lemma initializeAuth_unconfigured_witness :
  let '(completion, w, events) :=
    initializeAuth Demo.env_unconfigured initialWorld in
  completion = Normal tt
  /\ Store.loading (store w) = false
  /\ Store.user (store w) = None
  /\ Store.error (store w)
     = Some "Supabase is not configured. Please connect to Supabase."
  /\ provider_calls events = []
  /\ clock w = 0
  /\ events
     = [SetError (Some "Supabase is not configured. Please connect to Supabase.");
        SetLoading false; SetInitialized true].
Proof.
  apply (initializeAuth_unconfigured Demo.env_unconfigured).
  left. reflexivity.
Defined.

(** Without a client the listener is not registered either. *)
Remark setupAuthListener_without_client :
  forall (env : Env) (w : World),
    supabase env = None -> setupAuthListener env w = (Normal tt, w, []).
Proof.
  intros env w Hsb. unfold setupAuthListener. rewrite Hsb. reflexivity.
Qed.


(** ** Auth events *)

(** C4.  Whatever the store holds and whether or not a session comes
    with the event, the listener of a mounted component handles
    SIGNED_OUT by setting user, profile, session and error to null.
    This holds for the callback of every render, hence for the
    registered one. *)
Theorem signed_out_clears_state :
  forall (env : Env) (r : Store.t) (session : option Session.t) (w : World),
    mounted w = true ->
    let '(completion, w', _) :=
      onAuthStateChange_callback env r "SIGNED_OUT" session w in
    completion = Normal tt
    /\ Store.user (store w') = None
    /\ Store.profile (store w') = None
    /\ Store.session (store w') = None
    /\ Store.error (store w') = None.
Proof.
  intros env r session [s m c] Hm. simpl in Hm. subst m.
  unfold onAuthStateChange_callback. cbn.
  destruct (Store.initialized r); cbn; repeat split; reflexivity.
Qed.

Lemma signed_out_clears_state_witness :
  let '(completion, w', _) :=
    onAuthStateChange_callback (Demo.env_with Demo.healthy) Store.initial
      "SIGNED_OUT" (Some Demo.alice_session) Demo.signed_in_world in
  completion = Normal tt
  /\ Store.user (store w') = None
  /\ Store.profile (store w') = None
  /\ Store.session (store w') = None
  /\ Store.error (store w') = None.
Proof.
  apply (signed_out_clears_state (Demo.env_with Demo.healthy) Store.initial
           (Some Demo.alice_session) Demo.signed_in_world).
  reflexivity.
Defined.

(** ** Mutations *)

(** C6.  Through the context value of a render without a user,
    [updateProfile] returns at once for every argument: the world
    (every state cell included) is as before and no effect took place,
    in particular no provider call. *)
Theorem updateProfile_without_user_is_noop :
  forall (env : Env) (r : Store.t) (updates : ProfilePatch.t) (w : World),
    Store.user r = None ->
    AuthContextType.updateProfile (AuthProvider_value env r) updates w
    = (Normal tt, w, []).
Proof.
  intros env r updates w Hu. cbn. unfold updateProfile. rewrite Hu.
  reflexivity.
Qed.

Lemma updateProfile_without_user_is_noop_witness :
  AuthContextType.updateProfile
    (AuthProvider_value (Demo.env_with Demo.healthy) Store.initial)
    Demo.rename_patch initialWorld
  = (Normal tt, initialWorld, []).
Proof.
  apply (updateProfile_without_user_is_noop (Demo.env_with Demo.healthy)
           Store.initial Demo.rename_patch initialWorld).
  reflexivity.
Defined.

(** C7.  When account creation succeeds and the profile insert then
    fails (by an error in its response or by a rejection), [createClient]
    throws that very error to its caller, leaves the store as it was,
    and the two requests are all it sent: nothing undoes the account. *)
Theorem createClient_insert_failure_rethrows :
  forall (env : Env) (sb : SupabaseClient) (email password : string)
         (fullName : option string) (w : World) (created : User.t)
         (failure : Exn),
    supabase env = Some sb ->
    admin_createUser sb (clock w) email password fullName
      = Fulfilled {| cu_user := Some created; cu_error := None |} ->
    let row := {| NewProfile.id := User.id created;
                  NewProfile.email := email;
                  NewProfile.full_name := fullName;
                  NewProfile.role := "client" |} in
    insert_failure (insert_profile sb (S (clock w)) row) = Some failure ->
    let '(completion, w', events) :=
      createClient env email password fullName w in
    completion = Throw failure
    /\ store w' = store w
    /\ events = [Provider (CallAdminCreateUser email password fullName);
                 Provider (CallInsertProfile row)].
Proof.
  intros env sb email password fullName w created failure Hsb Hcreate row Hins.
  unfold createClient. rewrite Hsb.
  unfold try_catch, bind, await. rewrite Hcreate. cbn.
  fold row. unfold insert_failure in Hins.
  destruct (insert_profile sb (S (clock w)) row) as [[[e|]]|e]; cbn in *;
    try discriminate; injection Hins as <-; repeat split; reflexivity.
Qed.

Lemma createClient_insert_failure_rethrows_witness :
  let '(completion, w', events) :=
    createClient (Demo.env_with Demo.degraded) "bob@example.com" "s3cret"
      (Some "Bob") Demo.signed_in_world in
  completion = Throw (Thrown Demo.duplicate_key)
  /\ store w' = store Demo.signed_in_world
  /\ events = [Provider (CallAdminCreateUser "bob@example.com" "s3cret" (Some "Bob"));
               Provider (CallInsertProfile
                           {| NewProfile.id := "u2";
                              NewProfile.email := "bob@example.com";
                              NewProfile.full_name := Some "Bob";
                              NewProfile.role := "client" |})].
Proof.
  apply (createClient_insert_failure_rethrows (Demo.env_with Demo.degraded)
           Demo.degraded "bob@example.com" "s3cret" (Some "Bob")
           Demo.signed_in_world
           {| User.id := "u2"; User.email := "bob@example.com" |}
           (Thrown Demo.duplicate_key));
    reflexivity.
Defined.

(** ** Sign-out *)

(** C5, as amended.  With a provider client, every call of [signOut]
    completes and navigates to the root path.  For every response of
    the provider's sign-out (with or without an error in it) user,
    profile, session and error are null afterwards and the navigation
    is the one set for 100 ms later.  When the provider's call throws,
    the navigation happens at once and nothing is cleared: apart from
    the loading flag the store is as before. *)
Theorem signOut_always_navigates_to_root :
  forall (env : Env) (sb : SupabaseClient) (w : World),
    supabase env = Some sb ->
    let '(completion, w', events) := signOut env w in
    completion = Normal tt
    /\ existsb (navigates_to "/") events = true
    /\ (forall reply,
          auth_signOut sb (clock w) = Fulfilled reply ->
          Store.user (store w') = None
          /\ Store.profile (store w') = None
          /\ Store.session (store w') = None
          /\ Store.error (store w') = None
          /\ events = [SetLoading true; Provider CallSignOut;
                       SetUser None; SetProfile None; SetSession None;
                       SetError None; NavigateAfter 100 "/";
                       SetLoading false])
    /\ (forall e,
          auth_signOut sb (clock w) = Rejected e ->
          store w' = Store.set_loading false (Store.set_loading true (store w))
          /\ events = [SetLoading true; Provider CallSignOut; Navigate "/";
                       SetLoading false]).
Proof.
  intros env sb w Hsb. unfold signOut. rewrite Hsb.
  unfold try_finally, try_catch, bind, await. cbn.
  destruct (auth_signOut sb (clock w)) as [reply|e]; cbn.
  - split; [reflexivity|]. split; [reflexivity|]. split.
    + intros reply' _. do 4 (split; [reflexivity|]). reflexivity.
    + intros e He. discriminate He.
  - split; [reflexivity|]. split; [reflexivity|]. split.
    + intros reply He. discriminate He.
    + intros e' _. split; reflexivity.
Qed.

Lemma signOut_always_navigates_to_root_witness :
  let '(completion, w', events) :=
    signOut (Demo.env_with Demo.degraded) Demo.signed_in_world in
  completion = Normal tt
  /\ existsb (navigates_to "/") events = true
  /\ Store.user (store w') = None
  /\ Store.profile (store w') = None
  /\ Store.session (store w') = None
  /\ Store.error (store w') = None
  /\ events = [SetLoading true; Provider CallSignOut;
               SetUser None; SetProfile None; SetSession None;
               SetError None; NavigateAfter 100 "/";
               SetLoading false].
Proof.
  pose proof (signOut_always_navigates_to_root (Demo.env_with Demo.degraded)
                Demo.degraded Demo.signed_in_world eq_refl) as H.
  destruct (signOut (Demo.env_with Demo.degraded) Demo.signed_in_world)
    as [[completion w'] events].
  destruct H as (Hc & Hnav & Hreply & _).
  split; [exact Hc|]. split; [exact Hnav|].
  apply (Hreply {| so_error := Some Demo.unavailable |}). reflexivity.
Defined.

(** C5, as stated, fails: when the provider's sign-out throws, the call
    still navigates to the root path, but user, profile and session
    keep their values. *)
Lemma signOut_throw_skips_clear :
  (let '(_, w', events) :=
     signOut (Demo.env_with Demo.unreachable) Demo.signed_in_world in
   existsb (navigates_to "/") events = true
   /\ Store.user (store w') = Some Demo.alice
   /\ Store.profile (store w') = Some Demo.alice_profile
   /\ Store.session (store w') = Some Demo.alice_session)
  /\ ~ signOut_clears_and_navigates (Demo.env_with Demo.unreachable)
        Demo.signed_in_world.
Proof.
  split.
  - cbn. repeat split.
  - unfold signOut_clears_and_navigates. cbn. intros (_ & Huser & _).
    discriminate Huser.
Qed.

(** ** Profile fetch *)

Section FetchProfile.

Variable env : Env.
Variable sb : SupabaseClient.
Variable userId : string.

(** One attempt issues one read and suspends once; its completion is
    decided by the reply alone. *)
Lemma fetchProfile_attempt_run (w : World) :
  exists completion,
    fetchProfile_attempt env sb userId w
    = (completion, suspend env w, [Provider (CallSelectProfile userId)])
    /\ (is_not_found (select_single sb (clock w) userId) = true ->
        completion = Normal None)
    /\ (is_other_failure (select_single sb (clock w) userId) = true ->
        exists e, completion = Throw e)
    /\ (forall row,
          is_not_found (select_single sb (clock w) userId) = false ->
          fetched_row (select_single sb (clock w) userId) = Some row ->
          completion = Normal (Some row)).
Proof.
  unfold fetchProfile_attempt, bind, await, is_other_failure, is_not_found,
    fetched_row.
  destruct (select_single sb (clock w) userId) as [[data [err|]]|e]; cbn.
  - destruct (ProviderError.code err =? "PGRST116"); cbn;
      eexists; (split; [reflexivity|]); repeat split;
      intros; try discriminate; eauto.
  - destruct data as [row|]; cbn;
      eexists; (split; [reflexivity|]); repeat split;
      intros; try discriminate; eauto; congruence.
  - eexists; (split; [reflexivity|]); repeat split;
      intros; try discriminate; eauto.
Qed.

(** The loop, for any bound: it never throws, never touches the store,
    emits reads and delays only, and reads at most once per remaining
    iteration. *)
Lemma fetchProfile_loop_frame (retries remaining : nat) :
  forall (attempt : nat) (w : World),
    let '(completion, w', events) :=
      fetchProfile_loop env sb userId retries remaining attempt w in
    (exists result, completion = Normal result)
    /\ store w' = store w
    /\ Forall (fetch_event userId) events
    /\ length (provider_calls events) <= remaining.
Proof.
  induction remaining as [|remaining' IH]; intros attempt w.
  - cbn. repeat split; eauto.
  - cbn [fetchProfile_loop]. unfold try_catch.
    destruct (fetchProfile_attempt_run w) as (c & -> & _).
    destruct c as [result|e].
    + repeat split; eauto.
      * constructor; [left; reflexivity | constructor].
      * cbn. lia.
    + destruct (attempt =? retries)%nat.
      * cbn. repeat split; eauto.
        -- constructor; [left; reflexivity | constructor].
        -- lia.
      * unfold bind, sleep.
        specialize (IH (S attempt) (suspend env (suspend env w))).
        destruct (fetchProfile_loop env sb userId retries remaining'
                    (S attempt) (suspend env (suspend env w)))
          as [[c' w'] events'].
        destruct IH as (Hc & Hs & Hev & Hlen).
        repeat split; auto.
        -- cbn. constructor; [left; reflexivity|].
           constructor; [right; eexists; reflexivity | exact Hev].
        -- cbn. lia.
Qed.

End FetchProfile.

(** Closes a conjunction of implications whose premises have been
    decided. *)
Ltac close_cases :=
  repeat match goal with
         | |- _ /\ _ => split
         end;
  intros;
  repeat match goal with
         | |- _ /\ _ => split
         end;
  first [reflexivity | discriminate | congruence].

(** The retry schedule against a given client.  The reply to attempt n
    is the one given at suspension [clock w + 2 * (n - 1)], reads and
    delays alternating. *)
Lemma fetchProfile_with_client :
  forall (env : Env) (sb : SupabaseClient) (userId : string) (w : World),
    supabase env = Some sb ->
    let reply n := select_single sb (clock w + 2 * (n - 1)) userId in
    let read := Provider (CallSelectProfile userId) in
    let '(completion, _, events) :=
      fetchProfile env userId default_retries w in
    (is_not_found (reply 1) = true ->
        completion = Normal None /\ events = [read])
    /\ (is_other_failure (reply 1) = true ->
        firstn 3 events = [read; Delay (2 ^ 1 * 500); read])
    /\ (is_other_failure (reply 1) = true ->
        is_not_found (reply 2) = true ->
        completion = Normal None
        /\ events = [read; Delay (2 ^ 1 * 500); read])
    /\ (is_other_failure (reply 1) = true ->
        is_other_failure (reply 2) = true ->
        events = [read; Delay (2 ^ 1 * 500); read; Delay (2 ^ 2 * 500); read])
    /\ (is_other_failure (reply 1) = true ->
        is_other_failure (reply 2) = true ->
        is_not_found (reply 3) = true ->
        completion = Normal None)
    /\ (is_other_failure (reply 1) = true ->
        is_other_failure (reply 2) = true ->
        is_other_failure (reply 3) = true ->
        completion = Normal None).
Proof.
  intros env sb userId w Hsb reply read.
  assert (R1 : reply 1 = select_single sb (clock w) userId)
    by (unfold reply; f_equal; lia).
  assert (R2 : reply 2 = select_single sb (S (S (clock w))) userId)
    by (unfold reply; f_equal; lia).
  assert (R3 : reply 3 = select_single sb (S (S (S (S (clock w))))) userId)
    by (unfold reply; f_equal; lia).
  rewrite R1, R2, R3. clear R1 R2 R3 reply.
  unfold fetchProfile, default_retries. rewrite Hsb.
  cbn [fetchProfile_loop Nat.eqb]. unfold try_catch, bind, sleep.
  destruct (fetchProfile_attempt_run env sb userId w)
    as (c1 & -> & N1 & F1 & S1).
  destruct (fetchProfile_attempt_run env sb userId (suspend env (suspend env w)))
    as (c2 & -> & N2 & F2 & S2).
  destruct (fetchProfile_attempt_run env sb userId
              (suspend env (suspend env (suspend env (suspend env w)))))
    as (c3 & -> & N3 & F3 & S3).
  cbn [clock suspend] in N1, F1, S1, N2, F2, S2, N3, F3, S3.
  unfold is_other_failure in *.
  destruct (is_not_found (select_single sb (clock w) userId)) eqn:E1.
  { rewrite (N1 eq_refl). cbn. close_cases. }
  destruct (fetched_row (select_single sb (clock w) userId)) as [row1|] eqn:G1.
  { rewrite (S1 row1 eq_refl eq_refl). cbn. close_cases. }
  destruct (F1 eq_refl) as (e1 & ->). clear N1 F1 S1.
  destruct (is_not_found (select_single sb (S (S (clock w))) userId)) eqn:E2.
  { rewrite (N2 eq_refl). cbn. close_cases. }
  destruct (fetched_row (select_single sb (S (S (clock w))) userId))
    as [row2|] eqn:G2.
  { rewrite (S2 row2 eq_refl eq_refl). cbn. close_cases. }
  destruct (F2 eq_refl) as (e2 & ->). clear N2 F2 S2.
  destruct (is_not_found (select_single sb (S (S (S (S (clock w))))) userId)) eqn:E3.
  { rewrite (N3 eq_refl). cbn. close_cases. }
  destruct (fetched_row (select_single sb (S (S (S (S (clock w))))) userId))
    as [row3|] eqn:G3.
  { rewrite (S3 row3 eq_refl eq_refl). cbn. close_cases. }
  destruct (F3 eq_refl) as (e3 & ->). cbn. close_cases.
Qed.


(** [fetchProfile] as seen by its callers. *)
Lemma fetchProfile_frame (env : Env) (userId : string) (retries : nat) (w : World) :
  let '(completion, w', events) := fetchProfile env userId retries w in
  (exists result, completion = Normal result)
  /\ store w' = store w
  /\ Forall (fetch_event userId) events
  /\ length (provider_calls events) <= retries.
Proof.
  unfold fetchProfile. destruct (supabase env) as [sb|].
  - pose proof (fetchProfile_loop_frame env sb userId retries retries 1 w) as H.
    destruct (fetchProfile_loop env sb userId retries retries 1 w)
      as [[c w'] events].
    tauto.
  - cbn. repeat split; eauto. lia.
Qed.

Lemma fetch_events_write_no_state (userId : string) (events : list Event) :
  Forall (fetch_event userId) events -> filter is_state_write events = [].
Proof.
  induction 1 as [|e events He _ IH]; [reflexivity|].
  destruct He as [-> | [ms ->]]; cbn; exact IH.
Qed.

(** C3.  [fetchProfile] with its default bound, for every user id and
    every behaviour of the provider: it returns (never throws), leaves
    the store alone, writes no state cell and reads the profile at most
    3 times.  Against a client: a "not found" reply (code PGRST116) at
    attempt 1, 2 or 3 ends the fetch with null and no further read; any
    other failure at attempt n < 3 is followed by a delay of
    2^n * 500 ms and the next read; after a third failure the fetch
    returns null.  The reply to attempt n is the one given at suspension
    [clock w + 2 * (n - 1)], reads and delays alternating. *)
Theorem fetchProfile_retry_policy :
  forall (env : Env) (userId : string) (w : World),
    let '(completion, w', events) :=
      fetchProfile env userId default_retries w in
    (exists result, completion = Normal result)
    /\ store w' = store w
    /\ filter is_state_write events = []
    /\ length (provider_calls events) <= 3
    /\ (forall sb : SupabaseClient,
        supabase env = Some sb ->
        let reply n := select_single sb (clock w + 2 * (n - 1)) userId in
        let read := Provider (CallSelectProfile userId) in
        (is_not_found (reply 1) = true ->
            completion = Normal None /\ events = [read])
        /\ (is_other_failure (reply 1) = true ->
            firstn 3 events = [read; Delay (2 ^ 1 * 500); read])
        /\ (is_other_failure (reply 1) = true ->
            is_not_found (reply 2) = true ->
            completion = Normal None
            /\ events = [read; Delay (2 ^ 1 * 500); read])
        /\ (is_other_failure (reply 1) = true ->
            is_other_failure (reply 2) = true ->
            events = [read; Delay (2 ^ 1 * 500); read;
                      Delay (2 ^ 2 * 500); read])
        /\ (is_other_failure (reply 1) = true ->
            is_other_failure (reply 2) = true ->
            is_not_found (reply 3) = true ->
            completion = Normal None)
        /\ (is_other_failure (reply 1) = true ->
            is_other_failure (reply 2) = true ->
            is_other_failure (reply 3) = true ->
            completion = Normal None)).
Proof.
  intros env userId w.
  pose proof (fetchProfile_frame env userId default_retries w) as Hframe.
  pose proof (fun sb H => fetchProfile_with_client env sb userId w H) as Hclient.
  cbv zeta in Hclient.
  destruct (fetchProfile env userId default_retries w)
    as [[completion w'] events].
  destruct Hframe as (Hret & Hstore & Hev & Hlen).
  split; [exact Hret|]. split; [exact Hstore|].
  split; [exact (fetch_events_write_no_state _ _ Hev)|].
  split; [exact Hlen|].
  intros sb Hsb. exact (Hclient sb Hsb).
Qed.

Lemma fetchProfile_retry_policy_witness :
  let '(completion, _, events) :=
    fetchProfile (Demo.env_with Demo.flaky) "u1" default_retries initialWorld in
  completion = Normal None
  /\ events = [Provider (CallSelectProfile "u1"); Delay (2 ^ 1 * 500);
               Provider (CallSelectProfile "u1"); Delay (2 ^ 2 * 500);
               Provider (CallSelectProfile "u1")].
Proof.
  pose proof (fetchProfile_retry_policy (Demo.env_with Demo.flaky)
                "u1" initialWorld) as H.
  destruct (fetchProfile (Demo.env_with Demo.flaky) "u1" default_retries
              initialWorld) as [[completion w'] events].
  destruct H as (_ & _ & _ & _ & H).
  specialize (H Demo.flaky eq_refl). cbv zeta in H.
  destruct H as (_ & _ & _ & Hevents & Hnull & _).
  split.
  - apply Hnull; reflexivity.
  - apply Hevents; reflexivity.
Defined.



Lemma loading_writes_app (xs ys : list Event) :
  loading_writes (xs ++ ys) = loading_writes xs ++ loading_writes ys.
Proof.
  induction xs as [|x xs IH]; [reflexivity|].
  destruct x; cbn; rewrite IH; reflexivity.
Qed.

Lemma fetch_events_write_no_loading (userId : string) (events : list Event) :
  Forall (fetch_event userId) events -> loading_writes events = [].
Proof.
  induction 1 as [|e events He _ IH]; [reflexivity|].
  destruct He as [-> | [ms ->]]; cbn; exact IH.
Qed.

(** ** Stepping through runs *)

Ltac step_run env :=
  match goal with
  | |- context [fetchProfile env ?u ?n ?w1] =>
      let Hf := fresh "Hf" in
      pose proof (fetchProfile_frame env u n w1) as Hf;
      destruct (fetchProfile env u n w1) as [[? ?] ?];
      destruct Hf as ((? & ->) & ? & ? & ?)
  | |- context [match gs_error ?r with _ => _ end] => destruct (gs_error r)
  | |- context [match session_user ?s with _ => _ end] =>
      destruct (session_user s)
  | |- context [mounted ?w] => is_var w; destruct (mounted w) eqn:?
  | |- context [teardown_during env ?n] => destruct (teardown_during env n) eqn:?
  end.

Ltac unfold_run :=
  unfold try_finally, try_catch, bind, await, sleep, emit, get_mounted,
    when_mounted, clearAuthState, setUser, setProfile, setSession, setLoading,
    setError, setInitialized, write, ret, throw.

Ltac close_loading :=
  repeat first
    [ rewrite loading_writes_app
    | match goal with
      | H : Forall (fetch_event _) ?l |- context [loading_writes ?l] =>
          rewrite (fetch_events_write_no_loading _ _ H)
      end
    | progress cbn [loading_writes app] ];
  reflexivity.

(** ** The loading flag *)

(** C9, as amended.  A run of the bootstrap completes and writes the
    loading flag exactly once, with false, when the component is still
    mounted at its end, and not at all when it was torn down meanwhile;
    it never writes true.  The flag is not write-once beyond that: every
    [signOut] with a provider client writes it twice, true and then
    false. *)
Theorem bootstrap_settles_loading_once :
  forall (env : Env) (w : World),
    (let '(completion, w', events) := initializeAuth env w in
     completion = Normal tt
     /\ loading_writes events = if mounted w' then [false] else [])
    /\ (forall sb, supabase env = Some sb ->
        let '(_, _, events) := signOut env w in
        loading_writes events = [true; false]).
Proof.
  intros env [s m c]. split.
  - unfold initializeAuth.
    destruct (hasSupabaseConfig env); destruct (supabase env) as [sb|];
      try (unfold_run; destruct m; cbn; split; reflexivity).
    unfold_run. cbn [clock].
    destruct (getSession sb c) as [[reply|e]|]; cbn [race_timeout];
      destruct m;
      repeat (cbn -[fetchProfile loading_writes]; step_run env);
      cbn -[fetchProfile loading_writes];
      try congruence; (split; [reflexivity|]); close_loading.
  - intros sb Hsb. unfold signOut. rewrite Hsb. unfold_run. cbn [clock].
    destruct (auth_signOut sb c); reflexivity.
Qed.

Lemma bootstrap_settles_loading_once_witness :
  (let '(completion, w', events) :=
     initializeAuth (Demo.env_with Demo.healthy) initialWorld in
   completion = Normal tt
   /\ loading_writes events = if mounted w' then [false] else [])
  /\ (let '(_, _, events) :=
        signOut (Demo.env_with Demo.healthy) initialWorld in
      loading_writes events = [true; false]).
Proof.
  destruct (bootstrap_settles_loading_once (Demo.env_with Demo.healthy)
              initialWorld) as [Hboot Hout].
  split; [exact Hboot|].
  apply (Hout Demo.healthy). reflexivity.
Defined.

(** C9, as stated, fails: on a healthy provider the bootstrap writes
    false, and a later sign-out writes true and then false again. *)
Lemma signOut_rewrites_loading :
  (let '(_, _, events) :=
     lifetime (Demo.env_with Demo.healthy) [RequestSignOut] initialWorld in
   loading_writes events = [false; true; false])
  /\ ~ loading_settles_once (Demo.env_with Demo.healthy) [RequestSignOut].
Proof.
  split.
  - reflexivity.
  - unfold loading_settles_once. cbn. discriminate.
Qed.

(** ** Other auth events *)

(** The default branch of the callback of a render [r], in a mounted
    component: without a user in the session the four cells are
    cleared; with one, session and user are adopted, and the profile is
    left alone (no read) exactly when [r] holds a profile with the id of
    that user. *)
Remark callback_default_branch :
  forall (env : Env) (r : Store.t) (event : string)
         (session : option Session.t) (w : World),
    mounted w = true ->
    event <> "SIGNED_IN" -> event <> "TOKEN_REFRESHED" ->
    event <> "SIGNED_OUT" -> event <> "USER_UPDATED" ->
    let '(completion, w', events) :=
      onAuthStateChange_callback env r event session w in
    completion = Normal tt
    /\ (session_user session = None ->
        Store.user (store w') = None /\ Store.profile (store w') = None
        /\ Store.session (store w') = None /\ Store.error (store w') = None)
    /\ (forall user, session_user session = Some user ->
        Store.user (store w') = Some user
        /\ Store.session (store w') = session)
    /\ (forall user held,
        session_user session = Some user ->
        Store.profile r = Some held ->
        Profile.id held = User.id user ->
        provider_calls events = []
        /\ Store.profile (store w') = Store.profile (store w)).
Proof.
  intros env r event session [s m c] Hm H1 H2 H3 H4. simpl in Hm. subst m.
  unfold onAuthStateChange_callback.
  apply String.eqb_neq in H1, H2, H3, H4. unfold_run.
  cbn -[fetchProfile]. rewrite H1, H2, H3, H4. cbn -[fetchProfile].
  destruct (session_user session) as [user|].
  - destruct (match Store.profile r with
              | Some profile => negb (Profile.id profile =? User.id user)
              | None => true
              end) eqn:Hcond.
    + repeat (cbn -[fetchProfile]; step_run env).
      all: destruct (Store.initialized r); cbn.
      all: split; [reflexivity|].
      all: split; [intros; discriminate|].
      all: split; [intros u' Hu'; injection Hu' as <-;
                   rewrite ?H; split; reflexivity|].
      all: intros u' held Hu' Hheld Hid; injection Hu' as <-;
        rewrite Hheld, Hid, String.eqb_refl in Hcond; discriminate.
    + destruct (Store.initialized r); cbn.
      all: split; [reflexivity|].
      all: split; [intros; discriminate|].
      all: split; [intros u' Hu'; injection Hu' as <-; split; reflexivity|].
      all: intros; split; reflexivity.
  - destruct (Store.initialized r); cbn.
    all: split; [reflexivity|].
    all: split; [intros; repeat split; reflexivity|].
    all: split; intros; discriminate.
Qed.

(** One iteration of the loop. *)
Lemma fetchProfile_loop_step (env : Env) (sb : SupabaseClient)
    (userId : string) (retries remaining' attempt : nat) :
  fetchProfile_loop env sb userId retries (S remaining') attempt
  = try_catch (fetchProfile_attempt env sb userId)
      (fun _ =>
         if (attempt =? retries)%nat then ret None
         else
           sleep env (2 ^ attempt * 500) ;;
           fetchProfile_loop env sb userId retries remaining' (S attempt)).
Proof. reflexivity. Qed.

(** With a client, a fetch begins with a read and returns. *)
Lemma fetchProfile_first_read (env : Env) (sb : SupabaseClient)
    (userId : string) (w : World) :
  supabase env = Some sb ->
  exists result w' rest,
    fetchProfile env userId default_retries w
    = (Normal result, w', Provider (CallSelectProfile userId) :: rest).
Proof.
  intros Hsb. unfold fetchProfile, default_retries. rewrite Hsb.
  rewrite fetchProfile_loop_step. unfold try_catch.
  destruct (fetchProfile_attempt_run env sb userId w) as (c1 & -> & _).
  destruct c1 as [row|e]; [eauto|].
  cbn [Nat.eqb]. unfold bind, sleep.
  pose proof (fetchProfile_loop_frame env sb userId 3 2 2
                (suspend env (suspend env w))) as Hrest.
  destruct (fetchProfile_loop env sb userId 3 2 2 (suspend env (suspend env w)))
    as [[c2 w2] ev2].
  destruct Hrest as ((result & ->) & _). cbn. eauto.
Qed.

(** The registered listener is the callback of the first render, which
    holds no profile: on any other event with a user it reads the
    profile of that user, whatever the store holds by then. *)
Remark authListener_always_refetches :
  forall (env : Env) (sb : SupabaseClient) (event : string)
         (session : option Session.t) (user : User.t) (w : World),
    supabase env = Some sb ->
    mounted w = true ->
    event <> "SIGNED_IN" -> event <> "TOKEN_REFRESHED" ->
    event <> "SIGNED_OUT" -> event <> "USER_UPDATED" ->
    session_user session = Some user ->
    let '(_, _, events) := authListener env event session w in
    firstn 3 events
    = [SetSession session; SetUser (Some user);
       Provider (CallSelectProfile (User.id user))].
Proof.
  intros env sb event session user [s m c] Hsb Hm H1 H2 H3 H4 Hu.
  simpl in Hm. subst m.
  unfold authListener, onAuthStateChange_callback.
  apply String.eqb_neq in H1, H2, H3, H4.
  unfold_run. cbn -[fetchProfile].
  rewrite H1, H2, H3, H4, Hu. cbn -[fetchProfile].
  match goal with
  | |- context [fetchProfile env ?u ?n ?w1] =>
      destruct (fetchProfile_first_read env sb u w1 Hsb)
        as (result & w' & rest & E)
  end.
  rewrite E. destruct w' as [s' [|] c']; cbn; reflexivity.
Qed.

(** C8, the code at a failing input.  The store holds the profile of
    user u1, and an MFA_CHALLENGE_VERIFIED event arrives with a session of the
    same user: the registered listener reads the profile again all the
    same, because the [profile] it tests is the null of the first
    render. *)
Theorem authListener_refetches_held_profile :
  Store.profile (store Demo.signed_in_world) = Some Demo.alice_profile
  /\ Profile.id Demo.alice_profile = User.id Demo.alice
  /\ (let '(_, _, events) :=
        authListener (Demo.env_with Demo.healthy) "MFA_CHALLENGE_VERIFIED"
          (Some Demo.alice_session) Demo.signed_in_world in
      events = [SetSession (Some Demo.alice_session);
                SetUser (Some Demo.alice);
                Provider (CallSelectProfile "u1");
                SetProfile (Some Demo.alice_profile);
                SetLoading false; SetInitialized true]).
Proof.
  repeat split.
Qed.

(** * Further properties *)

(** ** Profile fetch, any bound *)


Lemma fetch_events_read_one_profile (userId : string) (events : list Event) :
  Forall (fetch_event userId) events ->
  Forall (fun c => c = CallSelectProfile userId) (provider_calls events).
Proof.
  induction 1 as [|e events He _ IH]; [constructor|].
  destruct He as [-> | [ms ->]]; cbn; [constructor; [reflexivity|]|]; exact IH.
Qed.

(** X1.  For every bound [retries], user id and provider, [fetchProfile]
    returns without throwing, leaves the store and every state cell
    alone, asks the provider for nothing but the profile of that user,
    and does so at most [retries] times. *)
Theorem fetchProfile_reads_are_bounded :
  forall (env : Env) (userId : string) (retries : nat) (w : World),
    let '(completion, w', events) := fetchProfile env userId retries w in
    (exists result, completion = Normal result)
    /\ store w' = store w
    /\ filter is_state_write events = []
    /\ Forall (fun c => c = CallSelectProfile userId) (provider_calls events)
    /\ length (provider_calls events) <= retries.
Proof.
  intros env userId retries w.
  pose proof (fetchProfile_frame env userId retries w) as H.
  destruct (fetchProfile env userId retries w) as [[completion w'] events].
  destruct H as (Hret & Hstore & Hev & Hlen).
  split; [exact Hret|]. split; [exact Hstore|].
  split; [exact (fetch_events_write_no_state _ _ Hev)|].
  split; [exact (fetch_events_read_one_profile _ _ Hev) | exact Hlen].
Qed.

Lemma fetched_row_is_not_not_found (a : Awaited SelectReply) (row : Profile.t) :
  fetched_row a = Some row ->
  is_not_found a = false /\ is_other_failure a = false.
Proof.
  unfold is_other_failure, is_not_found, fetched_row.
  destruct a as [[data [e|]]|e]; cbn; try discriminate.
  intros ->. split; reflexivity.
Qed.

(** X2.  With the default bound, the first read that delivers a row
    without an error ends the fetch with that row: at attempt 1 after
    one read, at attempt 2 after one delay of 2^1 * 500 ms, at attempt 3
    after a further delay of 2^2 * 500 ms, the earlier attempts having
    failed otherwise than by "not found". *)
Theorem fetchProfile_returns_first_row :
  forall (env : Env) (sb : SupabaseClient) (userId : string) (w : World)
         (row : Profile.t),
    supabase env = Some sb ->
    let reply n := select_single sb (clock w + 2 * (n - 1)) userId in
    let read := Provider (CallSelectProfile userId) in
    let '(completion, _, events) :=
      fetchProfile env userId default_retries w in
    (fetched_row (reply 1) = Some row ->
     completion = Normal (Some row) /\ events = [read])
    /\ (is_other_failure (reply 1) = true ->
        fetched_row (reply 2) = Some row ->
        completion = Normal (Some row)
        /\ events = [read; Delay (2 ^ 1 * 500); read])
    /\ (is_other_failure (reply 1) = true ->
        is_other_failure (reply 2) = true ->
        fetched_row (reply 3) = Some row ->
        completion = Normal (Some row)
        /\ events = [read; Delay (2 ^ 1 * 500); read;
                     Delay (2 ^ 2 * 500); read]).
Proof.
  intros env sb userId w row Hsb reply read.
  assert (R1 : reply 1 = select_single sb (clock w) userId)
    by (unfold reply; f_equal; lia).
  assert (R2 : reply 2 = select_single sb (S (S (clock w))) userId)
    by (unfold reply; f_equal; lia).
  assert (R3 : reply 3 = select_single sb (S (S (S (S (clock w))))) userId)
    by (unfold reply; f_equal; lia).
  rewrite R1, R2, R3. clear R1 R2 R3 reply.
  unfold fetchProfile, default_retries. rewrite Hsb.
  cbn [fetchProfile_loop Nat.eqb]. unfold try_catch, bind, sleep.
  destruct (fetchProfile_attempt_run env sb userId w)
    as (c1 & -> & N1 & F1 & S1).
  destruct (fetchProfile_attempt_run env sb userId (suspend env (suspend env w)))
    as (c2 & -> & N2 & F2 & S2).
  destruct (fetchProfile_attempt_run env sb userId
              (suspend env (suspend env (suspend env (suspend env w)))))
    as (c3 & -> & N3 & F3 & S3).
  cbn [clock suspend] in N1, F1, S1, N2, F2, S2, N3, F3, S3.
  destruct c1 as [r1|x1], c2 as [r2|x2], c3 as [r3|x3]; cbn;
    (split; [|split]); intros;
    repeat match goal with
      | H : is_other_failure ?a = true,
        F : is_other_failure ?a = true -> _ |- _ =>
          destruct (F H) as (? & ?); clear F
      | H : fetched_row ?a = Some ?r,
        S : forall r', is_not_found ?a = false -> fetched_row ?a = Some r' -> _
        |- _ =>
          pose proof (S r (proj1 (fetched_row_is_not_not_found _ _ H)) H);
          clear S
      end;
    try congruence;
    repeat match goal with
      | H : Normal _ = Normal _ |- _ => injection H as ->
      end;
    split; reflexivity.
Qed.

Lemma fetchProfile_returns_first_row_witness :
  let '(completion, _, events) :=
    fetchProfile (Demo.env_with Scenario.recovering) "u1" default_retries
      initialWorld in
  completion = Normal (Some Demo.alice_profile)
  /\ events = [Provider (CallSelectProfile "u1"); Delay (2 ^ 1 * 500);
               Provider (CallSelectProfile "u1")].
Proof.
  pose proof (fetchProfile_returns_first_row (Demo.env_with Scenario.recovering)
                Scenario.recovering "u1" initialWorld Demo.alice_profile
                eq_refl) as H.
  cbv zeta in H.
  destruct (fetchProfile (Demo.env_with Scenario.recovering) "u1"
              default_retries initialWorld) as [[completion w'] events].
  destruct H as (_ & H & _).
  apply H; reflexivity.
Defined.




(** ** Bootstrap with a client *)

(** X4.  When the session request of the bootstrap delivers no user (the
    5 s timer wins, the request is rejected, the response carries an
    error, or there is no session with a user) and the component is
    still mounted, the bootstrap ends logged out: user, profile, session
    and error are null, loading is false, and the session request is the
    only request made. *)
Theorem bootstrap_without_user_ends_logged_out :
  forall (env : Env) (sb : SupabaseClient) (w : World),
    hasSupabaseConfig env = true ->
    supabase env = Some sb ->
    mounted w = true ->
    teardown_during env (clock w) = false ->
    delivers_no_user (getSession sb (clock w)) = true ->
    let '(completion, w', events) := initializeAuth env w in
    completion = Normal tt
    /\ Store.user (store w') = None
    /\ Store.profile (store w') = None
    /\ Store.session (store w') = None
    /\ Store.error (store w') = None
    /\ Store.loading (store w') = false
    /\ provider_calls events = [CallGetSession].
Proof.
  intros env sb [s m c] Hcfg Hsb Hm Htd Hno. cbn in Hm, Htd, Hno. subst m.
  unfold initializeAuth. rewrite Hcfg, Hsb. unfold_run. cbn [clock].
  unfold delivers_no_user in Hno.
  destruct (getSession sb c) as [[reply|e]|]; cbn [race_timeout];
    [destruct (gs_error reply);
     [|destruct (session_user (gs_session reply)); [discriminate|]]| |];
    repeat (cbn; rewrite ?Htd); repeat split.
Qed.

Lemma bootstrap_without_user_ends_logged_out_witness :
  let '(completion, w', events) :=
    initializeAuth (Demo.env_with Scenario.slow_provider) initialWorld in
  completion = Normal tt
  /\ Store.user (store w') = None
  /\ Store.profile (store w') = None
  /\ Store.session (store w') = None
  /\ Store.error (store w') = None
  /\ Store.loading (store w') = false
  /\ provider_calls events = [CallGetSession].
Proof.
  apply (bootstrap_without_user_ends_logged_out
           (Demo.env_with Scenario.slow_provider) Scenario.slow_provider
           initialWorld); reflexivity.
Defined.

(** With a client, the first reply decides a fetch that a row or a
    "not found" answers. *)
Lemma fetchProfile_first_reply (env : Env) (sb : SupabaseClient)
    (userId : string) (w : World) :
  supabase env = Some sb ->
  (forall row,
     fetched_row (select_single sb (clock w) userId) = Some row ->
     fetchProfile env userId default_retries w
     = (Normal (Some row), suspend env w, [Provider (CallSelectProfile userId)]))
  /\ (is_not_found (select_single sb (clock w) userId) = true ->
      fetchProfile env userId default_retries w
      = (Normal None, suspend env w, [Provider (CallSelectProfile userId)])).
Proof.
  intros Hsb. unfold fetchProfile, default_retries. rewrite Hsb.
  rewrite fetchProfile_loop_step. unfold try_catch.
  destruct (fetchProfile_attempt_run env sb userId w) as (c1 & -> & N & _ & S).
  split.
  - intros row Hrow.
    rewrite (S row (proj1 (fetched_row_is_not_not_found _ _ Hrow)) Hrow).
    reflexivity.
  - intros Hnf. rewrite (N Hnf). reflexivity.
Qed.



(** X6.  After a bootstrap that adopted a user and was not torn down
    during its first two requests, the profile cell holds the row of
    the first profile read when that read delivers one, and null when
    it answers "not found"; in both cases that is the only read. *)
Theorem bootstrap_loads_profile :
  forall (env : Env) (sb : SupabaseClient) (w : World)
         (reply : GetSessionReply) (user : User.t),
    hasSupabaseConfig env = true ->
    supabase env = Some sb ->
    mounted w = true ->
    teardown_during env (clock w) = false ->
    teardown_during env (S (clock w)) = false ->
    getSession sb (clock w) = Some (Fulfilled reply) ->
    gs_error reply = None ->
    session_user (gs_session reply) = Some user ->
    let first_read := select_single sb (S (clock w)) (User.id user) in
    let '(_, w', events) := initializeAuth env w in
    (forall row,
       fetched_row first_read = Some row ->
       Store.profile (store w') = Some row
       /\ events = [Provider CallGetSession; SetSession (gs_session reply);
                    SetUser (Some user);
                    Provider (CallSelectProfile (User.id user));
                    SetProfile (Some row); SetLoading false;
                    SetInitialized true])
    /\ (is_not_found first_read = true ->
        Store.profile (store w') = None
        /\ events = [Provider CallGetSession; SetSession (gs_session reply);
                     SetUser (Some user);
                     Provider (CallSelectProfile (User.id user));
                     SetProfile None; SetLoading false; SetInitialized true]).
Proof.
  intros env sb [s m c] reply user Hcfg Hsb Hm Htd0 Htd1 Hget Herr Huser.
  cbn in Hm, Htd0, Htd1, Hget. subst m. cbn [clock].
  unfold initializeAuth. rewrite Hcfg, Hsb. unfold_run. cbn [clock].
  rewrite Hget. cbn [race_timeout]. cbn -[fetchProfile].
  rewrite Htd0. cbn -[fetchProfile]. rewrite Herr, Huser. cbn -[fetchProfile].
  match goal with
  | |- context [fetchProfile env ?u ?n ?w1] =>
      destruct (fetchProfile_first_reply env sb u w1 Hsb) as [Hrow Hnf]
  end.
  cbn [clock] in Hrow, Hnf.
  destruct (fetched_row (select_single sb (S c) (User.id user))) as [row|] eqn:Hf.
  - rewrite (Hrow row eq_refl). repeat (cbn; rewrite ?Htd0, ?Htd1).
    split.
    + intros row' Hrow'. injection Hrow' as <-. split; reflexivity.
    + intros Hn. destruct (fetched_row_is_not_not_found _ _ Hf). congruence.
  - destruct (is_not_found (select_single sb (S c) (User.id user))) eqn:Hn.
    + rewrite (Hnf eq_refl). repeat (cbn; rewrite ?Htd0, ?Htd1).
      split; [intros row' Hrow'; discriminate | intros _; split; reflexivity].
    + match goal with
      | |- context [fetchProfile env ?u ?n ?w1] =>
          destruct (fetchProfile env u n w1) as [[c2 w2] ev2]
      end.
      destruct c2, w2 as [s2 [|] k2]; cbn; split; intros; discriminate.
Qed.

Lemma bootstrap_loads_profile_witness :
  let '(_, w', events) :=
    initializeAuth (Demo.env_with Scenario.admin_provider) initialWorld in
  Store.profile (store w') = Some Demo.root_profile
  /\ events = [Provider CallGetSession; SetSession (Some Scenario.root_session);
               SetUser (Some Scenario.root);
               Provider (CallSelectProfile "u0");
               SetProfile (Some Demo.root_profile); SetLoading false;
               SetInitialized true].
Proof.
  pose proof (bootstrap_loads_profile (Demo.env_with Scenario.admin_provider)
                Scenario.admin_provider initialWorld
                {| gs_session := Some Scenario.root_session; gs_error := None |}
                Scenario.root eq_refl eq_refl eq_refl eq_refl eq_refl eq_refl
                eq_refl eq_refl) as H.
  cbv zeta in H.
  destruct (initializeAuth (Demo.env_with Scenario.admin_provider) initialWorld)
    as [[completion w'] events].
  destruct H as [H _]. apply (H Demo.root_profile). reflexivity.
Defined.

(** X7.  A bootstrap whose component is torn down before the session
    request settles writes no state cell and makes no further request,
    whatever the provider answers. *)
Theorem bootstrap_torn_down_writes_nothing :
  forall (env : Env) (sb : SupabaseClient) (w : World),
    hasSupabaseConfig env = true ->
    supabase env = Some sb ->
    mounted w = false \/ teardown_during env (clock w) = true ->
    let '(completion, w', events) := initializeAuth env w in
    completion = Normal tt
    /\ store w' = store w
    /\ events = [Provider CallGetSession].
Proof.
  intros env sb [s m c] Hcfg Hsb Hdown. cbn in Hdown.
  assert (Hm : m && negb (teardown_during env c) = false).
  { destruct Hdown as [-> | ->]; [reflexivity | apply andb_false_r]. }
  unfold initializeAuth. rewrite Hcfg, Hsb. unfold_run. cbn [clock].
  destruct (getSession sb c) as [[reply|e]|]; cbn [race_timeout];
    repeat (cbn; rewrite ?Hm); repeat split.
Qed.

Lemma bootstrap_torn_down_writes_nothing_witness :
  let '(completion, w', events) :=
    initializeAuth (Scenario.env_torn_down Demo.healthy) initialWorld in
  completion = Normal tt
  /\ store w' = store initialWorld
  /\ events = [Provider CallGetSession].
Proof.
  apply (bootstrap_torn_down_writes_nothing
           (Scenario.env_torn_down Demo.healthy) Demo.healthy initialWorld);
    [reflexivity | reflexivity | right; reflexivity].
Defined.

Lemma fetch_events_surface_no_error (userId : string) (events : list Event) :
  Forall (fetch_event userId) events -> existsb surfaces_error events = false.
Proof.
  induction 1 as [|e events He _ IH]; [reflexivity|].
  destruct He as [-> | [ms ->]]; cbn; exact IH.
Qed.

Ltac close_surfacing :=
  repeat first
    [ rewrite existsb_app
    | match goal with
      | H : Forall (fetch_event _) ?l |- context [existsb surfaces_error ?l] =>
          rewrite (fetch_events_surface_no_error _ _ H)
      end
    | progress cbn [existsb surfaces_error app orb] ];
  reflexivity.

(** X8.  With a configured client the bootstrap never throws and never
    puts a message into the error cell, whatever fails on the way. *)
Theorem bootstrap_never_surfaces_error :
  forall (env : Env) (sb : SupabaseClient) (w : World),
    hasSupabaseConfig env = true ->
    supabase env = Some sb ->
    let '(completion, _, events) := initializeAuth env w in
    completion = Normal tt
    /\ existsb surfaces_error events = false.
Proof.
  intros env sb [s m c] Hcfg Hsb.
  unfold initializeAuth. rewrite Hcfg, Hsb. unfold_run. cbn [clock].
  destruct (getSession sb c) as [[reply|e]|]; cbn [race_timeout];
    destruct m;
    repeat (cbn -[fetchProfile existsb]; step_run env);
    cbn -[fetchProfile existsb];
    (split; [reflexivity|]); close_surfacing.
Qed.

Lemma bootstrap_never_surfaces_error_witness :
  let '(completion, _, events) :=
    initializeAuth (Demo.env_with Demo.unreachable) initialWorld in
  completion = Normal tt
  /\ existsb surfaces_error events = false.
Proof.
  apply (bootstrap_never_surfaces_error (Demo.env_with Demo.unreachable)
           Demo.unreachable initialWorld); reflexivity.
Defined.

Lemma App_past_loading (env : Env) (r : Store.t) :
  Store.loading r = false ->
  exists view, App env r = Normal view /\ view <> LoadingScreen.
Proof.
  intros Hl. unfold App, AppContent, useAuth, useContext. cbn. rewrite Hl.
  destruct (Store.user r) as [u|]; [|eexists; split; [reflexivity|discriminate]].
  destruct (Store.profile r) as [p|]; [|eexists; split; [reflexivity|discriminate]].
  destruct (Profile.role p =? "admin");
    eexists; (split; [reflexivity|discriminate]).
Qed.

(** X9.  Whenever the bootstrap ends with the component still mounted,
    loading is false and initialized is true, so the application no
    longer renders the loading screen. *)
Theorem bootstrap_ends_loading_screen :
  forall (env : Env) (w : World),
    let '(_, w', _) := initializeAuth env w in
    mounted w' = true ->
    Store.loading (store w') = false
    /\ Store.initialized (store w') = true
    /\ exists view, App env (store w') = Normal view /\ view <> LoadingScreen.
Proof.
  intros env w.
  assert (H : let '(_, w', _) := initializeAuth env w in
              mounted w' = true ->
              Store.loading (store w') = false
              /\ Store.initialized (store w') = true).
  { destruct w as [s m c]. unfold initializeAuth.
    destruct (hasSupabaseConfig env); destruct (supabase env) as [sb|];
      try (unfold_run; destruct m; cbn; intros; try discriminate;
           split; reflexivity).
    unfold_run. cbn [clock].
    destruct (getSession sb c) as [[reply|e]|]; cbn [race_timeout];
      destruct m;
      repeat (cbn -[fetchProfile]; step_run env);
      cbn -[fetchProfile];
      intros; try congruence; split; reflexivity. }
  destruct (initializeAuth env w) as [[completion w'] events].
  intros Hm. destruct (H Hm) as [Hl Hi].
  split; [exact Hl|]. split; [exact Hi|].
  apply App_past_loading. exact Hl.
Qed.

Lemma bootstrap_ends_loading_screen_witness :
  let '(_, w', _) :=
    initializeAuth (Demo.env_with Demo.unprovisioned) initialWorld in
  Store.loading (store w') = false
  /\ Store.initialized (store w') = true
  /\ exists view,
       App (Demo.env_with Demo.unprovisioned) (store w') = Normal view
       /\ view <> LoadingScreen.
Proof.
  pose proof (bootstrap_ends_loading_screen (Demo.env_with Demo.unprovisioned)
                initialWorld) as H.
  destruct (initializeAuth (Demo.env_with Demo.unprovisioned) initialWorld)
    as [[completion w'] events] eqn:E.
  apply H.
  apply (f_equal (fun x => mounted (snd (fst x)))) in E.
  vm_compute in E. symmetry. exact E.
Defined.

(** ** The listener *)

Ltac split_event event :=
  destruct (event =? "SIGNED_IN"); [|destruct (event =? "TOKEN_REFRESHED")];
  [ | | destruct (event =? "SIGNED_OUT"); [|destruct (event =? "USER_UPDATED")]].

Ltac step_listener env r :=
  match goal with
  | |- context [fetchProfile env ?u ?n ?w1] =>
      let Hf := fresh "Hf" in
      pose proof (fetchProfile_frame env u n w1) as Hf;
      destruct (fetchProfile env u n w1) as [[? [? ? ?]] ?];
      destruct Hf as ((? & ->) & ? & ? & ?)
  | |- context [match session_user ?s with _ => _ end] =>
      destruct (session_user s)
  | |- context [match Store.profile r with _ => _ end] =>
      destruct (Store.profile r)
  | |- context [Store.initialized r] => destruct (Store.initialized r)
  | |- context [if ?b then _ else _] => destruct b
  end.

(** X10.  The callback writes state only while the component is
    mounted.  Called after the teardown it does nothing at all; and
    when it ends torn down, the teardown having happened while a
    profile was being fetched, it has written neither the profile cell
    nor loading nor initialized. *)
Theorem callback_respects_teardown :
  forall (env : Env) (r : Store.t) (event : string)
         (session : option Session.t) (w : World),
    (mounted w = false ->
     onAuthStateChange_callback env r event session w = (Normal tt, w, []))
    /\ (let '(_, w', _) := onAuthStateChange_callback env r event session w in
        mounted w' = false ->
        Store.profile (store w') = Store.profile (store w)
        /\ Store.loading (store w') = Store.loading (store w)
        /\ Store.initialized (store w') = Store.initialized (store w)).
Proof.
  intros env r event session [s m c]. split.
  - cbn. intros ->. reflexivity.
  - unfold onAuthStateChange_callback. unfold_run.
    destruct m; [|cbn; intros _; repeat split].
    cbn -[fetchProfile String.eqb].
    split_event event;
      repeat (cbn -[fetchProfile String.eqb]; step_listener env r);
      cbn -[fetchProfile String.eqb] in *; subst;
      intros; try discriminate; repeat split.
Qed.

Lemma callback_respects_teardown_witness :
  onAuthStateChange_callback (Demo.env_with Demo.healthy) Store.initial
    "SIGNED_OUT" None
    {| store := Demo.signed_in; mounted := false; clock := 9 |}
  = (Normal tt, {| store := Demo.signed_in; mounted := false; clock := 9 |}, [])
  /\ (let '(_, w', _) :=
        onAuthStateChange_callback (Scenario.env_torn_down Demo.healthy)
          Store.initial "SIGNED_IN" (Some Demo.alice_session) initialWorld in
      Store.profile (store w') = None
      /\ Store.loading (store w') = true
      /\ Store.initialized (store w') = false).
Proof.
  split.
  - apply (proj1 (callback_respects_teardown (Demo.env_with Demo.healthy)
                    Store.initial "SIGNED_OUT" None
                    {| store := Demo.signed_in; mounted := false; clock := 9 |})).
    reflexivity.
  - generalize (callback_respects_teardown
                  (Scenario.env_torn_down Demo.healthy) Store.initial
                  "SIGNED_IN" (Some Demo.alice_session) initialWorld).
    destruct (onAuthStateChange_callback (Scenario.env_torn_down Demo.healthy)
                Store.initial "SIGNED_IN" (Some Demo.alice_session)
                initialWorld) as [[completion w'] events] eqn:E.
    intros [_ H]. apply H.
    apply (f_equal (fun x => mounted (snd (fst x)))) in E.
    vm_compute in E. symmetry. exact E.
Defined.



(** X12.  On SIGNED_IN and on TOKEN_REFRESHED with a user in the
    session, when the component stays mounted during the first read,
    the profile cell ends as the row that read delivers, or as null
    when it answers "not found", after that single read. *)
Theorem signed_in_loads_profile :
  forall (env : Env) (sb : SupabaseClient) (r : Store.t) (event : string)
         (session : option Session.t) (user : User.t) (w : World),
    event = "SIGNED_IN" \/ event = "TOKEN_REFRESHED" ->
    supabase env = Some sb ->
    mounted w = true ->
    teardown_during env (clock w) = false ->
    session_user session = Some user ->
    let first_read := select_single sb (clock w) (User.id user) in
    let '(_, w', events) :=
      onAuthStateChange_callback env r event session w in
    (forall row,
       fetched_row first_read = Some row ->
       Store.profile (store w') = Some row
       /\ provider_calls events = [CallSelectProfile (User.id user)])
    /\ (is_not_found first_read = true ->
        Store.profile (store w') = None
        /\ provider_calls events = [CallSelectProfile (User.id user)]).
Proof.
  intros env sb r event session user [s m c] Hev Hsb Hm Htd Hu.
  cbn in Hm, Htd. subst m. cbn [clock].
  unfold onAuthStateChange_callback. unfold_run.
  destruct Hev as [-> | ->]; cbn -[fetchProfile]; rewrite Hu;
    cbn -[fetchProfile];
    (match goal with
     | |- context [fetchProfile env ?u ?n ?w1] =>
         destruct (fetchProfile_first_reply env sb u w1 Hsb) as [Hrow Hnf]
     end);
    cbn [clock] in Hrow, Hnf;
    (destruct (fetched_row (select_single sb c (User.id user)))
       as [row|] eqn:Hf;
     [ rewrite (Hrow row eq_refl); repeat (cbn; rewrite ?Htd);
       destruct (Store.initialized r); cbn;
       (split;
        [ intros row' Hrow'; injection Hrow' as <-; split; reflexivity
        | intros Hn; destruct (fetched_row_is_not_not_found _ _ Hf);
          congruence ])
     | destruct (is_not_found (select_single sb c (User.id user))) eqn:Hn;
       [ rewrite (Hnf eq_refl); repeat (cbn; rewrite ?Htd);
         destruct (Store.initialized r); cbn;
         (split; [intros row' Hrow'; discriminate
                 | intros _; split; reflexivity])
       | match goal with
         | |- context [fetchProfile env ?u ?n ?w1] =>
             destruct (fetchProfile env u n w1) as [[c2 [s2 [|] k2]] ev2]
         end;
         destruct c2, (Store.initialized r); cbn;
         split; intros; discriminate ] ]).
Qed.

Lemma signed_in_loads_profile_witness :
  let '(_, w', events) :=
    onAuthStateChange_callback (Demo.env_with Demo.unprovisioned) Store.initial
      "SIGNED_IN" (Some Demo.alice_session) initialWorld in
  Store.profile (store w') = None
  /\ provider_calls events = [CallSelectProfile "u1"].
Proof.
  pose proof (signed_in_loads_profile (Demo.env_with Demo.unprovisioned)
                Demo.unprovisioned Store.initial "SIGNED_IN"
                (Some Demo.alice_session) Demo.alice initialWorld
                (or_introl eq_refl) eq_refl eq_refl eq_refl eq_refl) as H.
  cbv zeta in H.
  destruct (onAuthStateChange_callback (Demo.env_with Demo.unprovisioned)
              Store.initial "SIGNED_IN" (Some Demo.alice_session) initialWorld)
    as [[completion w'] events].
  destruct H as [_ H]. apply H. reflexivity.
Defined.

(** X13.  SIGNED_IN, TOKEN_REFRESHED and USER_UPDATED that come without
    a user in the session change neither user, profile, session nor
    error, and no request is made. *)
Theorem event_without_user_keeps_identity :
  forall (env : Env) (r : Store.t) (event : string)
         (session : option Session.t) (w : World),
    event = "SIGNED_IN" \/ event = "TOKEN_REFRESHED" \/ event = "USER_UPDATED" ->
    session_user session = None ->
    let '(completion, w', events) :=
      onAuthStateChange_callback env r event session w in
    completion = Normal tt
    /\ Store.user (store w') = Store.user (store w)
    /\ Store.profile (store w') = Store.profile (store w)
    /\ Store.session (store w') = Store.session (store w)
    /\ Store.error (store w') = Store.error (store w)
    /\ provider_calls events = [].
Proof.
  intros env r event session [s [|] c] Hev Hu;
    unfold onAuthStateChange_callback; unfold_run;
    destruct Hev as [-> | [-> | ->]]; cbn; rewrite ?Hu;
    destruct (Store.initialized r); cbn; repeat split.
Qed.

Lemma event_without_user_keeps_identity_witness :
  let '(completion, w', events) :=
    onAuthStateChange_callback (Demo.env_with Demo.healthy) Store.initial
      "USER_UPDATED" None Demo.signed_in_world in
  completion = Normal tt
  /\ Store.user (store w') = Some Demo.alice
  /\ Store.profile (store w') = Some Demo.alice_profile
  /\ Store.session (store w') = Some Demo.alice_session
  /\ Store.error (store w') = None
  /\ provider_calls events = [].
Proof.
  apply (event_without_user_keeps_identity (Demo.env_with Demo.healthy)
           Store.initial "USER_UPDATED" None Demo.signed_in_world);
    [right; right; reflexivity | reflexivity].
Defined.

(** X14.  On USER_UPDATED with a user in the session a mounted component
    adopts session and user and makes no request: the profile cell and
    the error cell keep their values, also when the user is another one
    than the profile's. *)
Theorem user_updated_adopts_without_fetch :
  forall (env : Env) (r : Store.t) (session : option Session.t)
         (user : User.t) (w : World),
    mounted w = true ->
    session_user session = Some user ->
    let '(completion, w', events) :=
      onAuthStateChange_callback env r "USER_UPDATED" session w in
    completion = Normal tt
    /\ Store.user (store w') = Some user
    /\ Store.session (store w') = session
    /\ Store.profile (store w') = Store.profile (store w)
    /\ Store.error (store w') = Store.error (store w)
    /\ provider_calls events = [].
Proof.
  intros env r session user [s m c] Hm Hu. cbn in Hm. subst m.
  unfold onAuthStateChange_callback. unfold_run. cbn. rewrite Hu.
  destruct (Store.initialized r); cbn; repeat split.
Qed.

Lemma user_updated_adopts_without_fetch_witness :
  let '(completion, w', events) :=
    onAuthStateChange_callback (Demo.env_with Demo.healthy) Store.initial
      "USER_UPDATED" (Some Scenario.root_session) Demo.signed_in_world in
  completion = Normal tt
  /\ Store.user (store w') = Some Scenario.root
  /\ Store.session (store w') = Some Scenario.root_session
  /\ Store.profile (store w') = Some Demo.alice_profile
  /\ Store.error (store w') = None
  /\ provider_calls events = [].
Proof.
  apply (user_updated_adopts_without_fetch (Demo.env_with Demo.healthy)
           Store.initial (Some Scenario.root_session) Scenario.root
           Demo.signed_in_world); reflexivity.
Defined.

(** X15.  The callback never throws and never puts a message into the
    error cell: its handler for failures, which would set
    ['Authentication error occurred'], is never reached, for no event,
    session, render or provider. *)
Theorem callback_never_surfaces_error :
  forall (env : Env) (r : Store.t) (event : string)
         (session : option Session.t) (w : World),
    let '(completion, _, events) :=
      onAuthStateChange_callback env r event session w in
    completion = Normal tt
    /\ existsb surfaces_error events = false.
Proof.
  intros env r event session [s m c].
  unfold onAuthStateChange_callback. unfold_run.
  destruct m; [|cbn; split; reflexivity].
  cbn -[fetchProfile existsb String.eqb].
  split_event event;
    repeat (cbn -[fetchProfile existsb String.eqb]; step_listener env r);
    cbn -[fetchProfile existsb String.eqb];
    (split; [reflexivity|]); close_surfacing.
Qed.

(** X16.  The registered listener ends every event it handles on a
    component still mounted by writing loading false and initialized
    true, so that afterwards the application does not render the
    loading screen. *)
Theorem authListener_ends_loading :
  forall (env : Env) (event : string) (session : option Session.t) (w : World),
    mounted w = true ->
    let '(_, w', _) := authListener env event session w in
    mounted w' = true ->
    Store.loading (store w') = false
    /\ Store.initialized (store w') = true
    /\ exists view, App env (store w') = Normal view /\ view <> LoadingScreen.
Proof.
  intros env event session [s m c] Hm. cbn in Hm. subst m.
  assert (H : let '(_, w', _) := authListener env event session
                                   {| store := s; mounted := true; clock := c |} in
              mounted w' = true ->
              Store.loading (store w') = false
              /\ Store.initialized (store w') = true).
  { unfold authListener, onAuthStateChange_callback. unfold_run.
    cbn -[fetchProfile String.eqb].
    split_event event;
      repeat (cbn -[fetchProfile String.eqb]; step_listener env Store.initial);
      cbn -[fetchProfile String.eqb];
      intros; try congruence; split; reflexivity. }
  destruct (authListener env event session
              {| store := s; mounted := true; clock := c |})
    as [[completion w'] events].
  intros Hm. destruct (H Hm) as [Hl Hi].
  split; [exact Hl|]. split; [exact Hi|].
  apply App_past_loading. exact Hl.
Qed.

Lemma authListener_ends_loading_witness :
  let '(_, w', _) :=
    authListener (Demo.env_with Demo.healthy) "USER_UPDATED"
      (Some Demo.alice_session)
      {| store := Store.set_loading true Demo.signed_in;
         mounted := true; clock := 3 |} in
  Store.loading (store w') = false
  /\ Store.initialized (store w') = true
  /\ exists view,
       App (Demo.env_with Demo.healthy) (store w') = Normal view
       /\ view <> LoadingScreen.
Proof.
  pose proof (authListener_ends_loading (Demo.env_with Demo.healthy)
                "USER_UPDATED" (Some Demo.alice_session)
                {| store := Store.set_loading true Demo.signed_in;
                   mounted := true; clock := 3 |} eq_refl) as H.
  destruct (authListener (Demo.env_with Demo.healthy) "USER_UPDATED"
              (Some Demo.alice_session)
              {| store := Store.set_loading true Demo.signed_in;
                 mounted := true; clock := 3 |})
    as [[completion w'] events] eqn:E.
  apply H.
  apply (f_equal (fun x => mounted (snd (fst x)))) in E.
  vm_compute in E. symmetry. exact E.
Defined.

(** ** Profile update *)

(** X17.  [updateProfile] from a render with a user: the one request
    goes to the row of that user and carries the caller's updates with
    [updated_at] replaced by the current time, whatever the caller put
    there.  When the response has no error the profile cell becomes the
    returned row and nothing else in the store changes. *)
Theorem updateProfile_replaces_profile :
  forall (env : Env) (sb : SupabaseClient) (r : Store.t) (user : User.t)
         (updates : ProfilePatch.t) (w : World) (reply : UpdateReply),
    Store.user r = Some user ->
    supabase env = Some sb ->
    let patch := ProfilePatch.with_updated_at updates (now_iso env (clock w)) in
    update_single sb (clock w) (User.id user) patch = Fulfilled reply ->
    upd_error reply = None ->
    let '(completion, w', events) := updateProfile env r updates w in
    completion = Normal tt
    /\ store w' = Store.set_profile (upd_data reply) (store w)
    /\ events = [Provider (CallUpdateProfile (User.id user) patch);
                 SetProfile (upd_data reply)]
    /\ ProfilePatch.updated_at patch = Some (now_iso env (clock w))
    /\ ProfilePatch.full_name patch = ProfilePatch.full_name updates
    /\ ProfilePatch.email patch = ProfilePatch.email updates
    /\ ProfilePatch.role patch = ProfilePatch.role updates
    /\ ProfilePatch.id patch = ProfilePatch.id updates.
Proof.
  intros env sb r user updates w reply Hu Hsb patch Hreply Herr.
  unfold updateProfile. rewrite Hu, Hsb. unfold_run. unfold now. cbn.
  fold patch. rewrite Hreply. cbn. rewrite Herr. cbn.
  repeat split.
Qed.

Lemma updateProfile_replaces_profile_witness :
  let '(completion, w', events) :=
    updateProfile (Demo.env_with Demo.healthy) Demo.signed_in
      Scenario.stale_patch Demo.signed_in_world in
  completion = Normal tt
  /\ store w' = Store.set_profile (Some Demo.alice_profile) Demo.signed_in
  /\ events = [Provider (CallUpdateProfile "u1"
                 (ProfilePatch.with_updated_at Scenario.stale_patch
                    "2024-06-01T12:00:00.000Z"));
               SetProfile (Some Demo.alice_profile)]
  /\ ProfilePatch.updated_at
       (ProfilePatch.with_updated_at Scenario.stale_patch
          "2024-06-01T12:00:00.000Z")
     = Some "2024-06-01T12:00:00.000Z".
Proof.
  pose proof (updateProfile_replaces_profile (Demo.env_with Demo.healthy)
                Demo.healthy Demo.signed_in Demo.alice Scenario.stale_patch
                Demo.signed_in_world
                {| upd_data := Some Demo.alice_profile; upd_error := None |}
                eq_refl eq_refl eq_refl eq_refl) as H.
  cbv zeta in H.
  destruct (updateProfile (Demo.env_with Demo.healthy) Demo.signed_in
              Scenario.stale_patch Demo.signed_in_world)
    as [[completion w'] events].
  destruct H as (H1 & H2 & H3 & H4 & _).
  repeat split; assumption.
Defined.

(** X18.  When the update fails, by an error in the response or by a
    rejection, [updateProfile] throws that very error to its caller
    after the one request, and the store is as before. *)
Theorem updateProfile_failure_rethrows :
  forall (env : Env) (sb : SupabaseClient) (r : Store.t) (user : User.t)
         (updates : ProfilePatch.t) (w : World) (failure : Exn),
    Store.user r = Some user ->
    supabase env = Some sb ->
    let patch := ProfilePatch.with_updated_at updates (now_iso env (clock w)) in
    update_failure (update_single sb (clock w) (User.id user) patch)
      = Some failure ->
    let '(completion, w', events) := updateProfile env r updates w in
    completion = Throw failure
    /\ store w' = store w
    /\ events = [Provider (CallUpdateProfile (User.id user) patch)].
Proof.
  intros env sb r user updates w failure Hu Hsb patch Hfail.
  unfold updateProfile. rewrite Hu, Hsb. unfold_run. unfold now. cbn.
  fold patch. unfold update_failure in Hfail.
  destruct (update_single sb (clock w) (User.id user) patch) as [[data [e|]]|e];
    cbn in *; try discriminate; injection Hfail as <-; repeat split.
Qed.

Lemma updateProfile_failure_rethrows_witness :
  let '(completion, w', events) :=
    updateProfile (Demo.env_with Demo.degraded) Demo.signed_in
      Demo.rename_patch Demo.signed_in_world in
  completion = Throw (Thrown Demo.unavailable)
  /\ store w' = Demo.signed_in
  /\ events = [Provider (CallUpdateProfile "u1"
                 (ProfilePatch.with_updated_at Demo.rename_patch
                    "2024-06-01T12:00:00.000Z"))].
Proof.
  apply (updateProfile_failure_rethrows (Demo.env_with Demo.degraded)
           Demo.degraded Demo.signed_in Demo.alice Demo.rename_patch
           Demo.signed_in_world (Thrown Demo.unavailable)); reflexivity.
Defined.

(** ** Client creation *)


(** X20.  When the account creation fails, by an error in the response
    or by a rejection, [createClient] throws that error and never
    attempts the profile insert; without a client it throws
    ['Supabase not configured'] without any effect. *)
Theorem createClient_creation_failure_stops :
  forall (env : Env) (email password : string) (fullName : option string)
         (w : World),
    (supabase env = None ->
     createClient env email password fullName w
     = (Throw (JsError "Supabase not configured"), w, []))
    /\ (forall sb failure,
          supabase env = Some sb ->
          createUser_failure
            (admin_createUser sb (clock w) email password fullName)
            = Some failure ->
          let '(completion, w', events) :=
            createClient env email password fullName w in
          completion = Throw failure
          /\ store w' = store w
          /\ events = [Provider (CallAdminCreateUser email password fullName)]).
Proof.
  intros env email password fullName w. unfold createClient. split.
  - intros ->. reflexivity.
  - intros sb failure -> Hfail. unfold_run. cbn.
    unfold createUser_failure in Hfail.
    destruct (admin_createUser sb (clock w) email password fullName)
      as [[created [e|]]|e]; cbn in *; try discriminate;
      injection Hfail as <-; repeat split.
Qed.

Lemma createClient_creation_failure_stops_witness :
  createClient Demo.env_unconfigured "bob@example.com" "s3cret" None initialWorld
  = (Throw (JsError "Supabase not configured"), initialWorld, [])
  /\ (let '(completion, w', events) :=
        createClient (Demo.env_with Scenario.refusing) "bob@example.com"
          "s3cret" None initialWorld in
      completion = Throw (Thrown Demo.duplicate_key)
      /\ store w' = store initialWorld
      /\ events = [Provider (CallAdminCreateUser "bob@example.com" "s3cret" None)]).
Proof.
  split.
  - apply (proj1 (createClient_creation_failure_stops Demo.env_unconfigured
                    "bob@example.com" "s3cret" None initialWorld)).
    reflexivity.
  - apply (proj2 (createClient_creation_failure_stops
                    (Demo.env_with Scenario.refusing)
                    "bob@example.com" "s3cret" None initialWorld)
             Scenario.refusing (Thrown Demo.duplicate_key));
      reflexivity.
Defined.

(** X21.  When the account creation returns a user without an error and
    the insert responds without an error, [createClient] returns
    normally after exactly these two requests: the row inserted has the
    id of the created user, the e-mail and full name given, and the
    role ["client"]. *)
Theorem createClient_success :
  forall (env : Env) (sb : SupabaseClient) (email password : string)
         (fullName : option string) (w : World) (created : User.t),
    supabase env = Some sb ->
    admin_createUser sb (clock w) email password fullName
      = Fulfilled {| cu_user := Some created; cu_error := None |} ->
    let row := {| NewProfile.id := User.id created;
                  NewProfile.email := email;
                  NewProfile.full_name := fullName;
                  NewProfile.role := "client" |} in
    insert_profile sb (S (clock w)) row = Fulfilled {| ins_error := None |} ->
    let '(completion, w', events) :=
      createClient env email password fullName w in
    completion = Normal tt
    /\ store w' = store w
    /\ events = [Provider (CallAdminCreateUser email password fullName);
                 Provider (CallInsertProfile row)].
Proof.
  intros env sb email password fullName w created Hsb Hcreate row Hins.
  unfold createClient. rewrite Hsb. unfold_run. cbn.
  rewrite Hcreate. cbn. fold row. rewrite Hins. cbn. repeat split.
Qed.

Lemma createClient_success_witness :
  let '(completion, w', events) :=
    createClient (Demo.env_with Scenario.admin_provider) "bob@example.com"
      "s3cret" (Some "Bob") initialWorld in
  completion = Normal tt
  /\ store w' = store initialWorld
  /\ events = [Provider (CallAdminCreateUser "bob@example.com" "s3cret" (Some "Bob"));
               Provider (CallInsertProfile
                           {| NewProfile.id := "u2";
                              NewProfile.email := "bob@example.com";
                              NewProfile.full_name := Some "Bob";
                              NewProfile.role := "client" |})].
Proof.
  apply (createClient_success (Demo.env_with Scenario.admin_provider)
           Scenario.admin_provider "bob@example.com" "s3cret" (Some "Bob")
           initialWorld {| User.id := "u2"; User.email := "bob@example.com" |});
    reflexivity.
Defined.

(** ** An invariant of the store *)

Ltac step_coherent env r :=
  match goal with
  | |- context [fetchProfile env ?u ?n ?w1] =>
      let Hf := fresh "Hf" in
      pose proof (fetchProfile_frame env u n w1) as Hf;
      destruct (fetchProfile env u n w1) as [[? [? ? ?]] ?];
      destruct Hf as ((? & ->) & ? & ? & ?)
  | |- context [match gs_error ?x with _ => _ end] => destruct (gs_error x)
  | |- context [match session_user ?s with _ => _ end] =>
      destruct (session_user s) eqn:?
  | |- context [match Store.profile r with _ => _ end] =>
      destruct (Store.profile r)
  | |- context [Store.initialized r] => destruct (Store.initialized r)
  | |- context [if ?b then _ else _] => destruct b
  end.

Ltac close_coherent :=
  unfold session_coherent in *; cbn in *; subst; cbn in *;
  first [assumption | reflexivity | congruence].

Lemma initializeAuth_keeps_coherence (env : Env) (w : World) :
  session_coherent (store w) ->
  let '(_, w', _) := initializeAuth env w in session_coherent (store w').
Proof.
  destruct w as [s m c]. cbn [store]. intros Hc. unfold initializeAuth.
  destruct (hasSupabaseConfig env); destruct (supabase env) as [sb|];
    try (unfold_run; destruct m; cbn; exact Hc).
  unfold_run. cbn [clock].
  destruct (getSession sb c) as [[reply|e]|]; cbn [race_timeout];
    repeat (cbn -[fetchProfile]; step_coherent env Store.initial);
    cbn -[fetchProfile]; close_coherent.
Qed.

Lemma callback_keeps_coherence (env : Env) (r : Store.t) (event : string)
    (session : option Session.t) (w : World) :
  session_coherent (store w) ->
  let '(_, w', _) := onAuthStateChange_callback env r event session w in
  session_coherent (store w').
Proof.
  destruct w as [s m c]. cbn [store]. intros Hc.
  unfold onAuthStateChange_callback. unfold_run.
  destruct m; [|cbn; exact Hc].
  cbn -[fetchProfile String.eqb].
  split_event event;
    repeat (cbn -[fetchProfile String.eqb]; step_coherent env r);
    cbn -[fetchProfile String.eqb]; close_coherent.
Qed.

Lemma run_operation_keeps_coherence (env : Env) (op : Operation) (w : World) :
  session_coherent (store w) ->
  let '(_, w', _) := run_operation env op w in session_coherent (store w').
Proof.
  intros Hc. destruct op as [|event session| |updates|email password fullName];
    cbn [run_operation AuthContextType.signOut AuthContextType.updateProfile
         AuthContextType.createClient AuthProvider_value].
  - exact (initializeAuth_keeps_coherence env w Hc).
  - exact (callback_keeps_coherence env Store.initial event session w Hc).
  - unfold signOut. destruct (supabase env) as [sb|]; [|exact Hc].
    unfold_run. cbn. destruct (auth_signOut sb (clock w)); cbn;
      [reflexivity | exact Hc].
  - unfold updateProfile.
    destruct (Store.user (store w)) as [user|]; [|exact Hc].
    destruct (supabase env) as [sb|]; [|exact Hc].
    unfold_run. unfold now. cbn.
    match goal with
    | |- context [update_single sb ?n ?i ?p] =>
        destruct (update_single sb n i p) as [[data [e|]]|e]
    end; cbn; exact Hc.
  - unfold createClient. destruct (supabase env) as [sb|]; [|exact Hc].
    unfold_run. cbn.
    destruct (admin_createUser sb (clock w) email password fullName)
      as [[[created|] [e|]]|e]; cbn; try exact Hc.
    match goal with
    | |- context [insert_profile sb ?n ?row] =>
        destruct (insert_profile sb n row) as [[[e|]]|e]
    end; cbn; exact Hc.
Qed.

(** X22.  Through every history of bootstrap, events, sign-outs, profile
    updates and client creations, in any order and whatever the
    provider answers, the user cell stays the user of the session cell:
    both are adopted together and cleared together. *)
Theorem session_coherence_is_invariant :
  forall (env : Env) (ops : list Operation) (w : World),
    session_coherent (store w) ->
    let '(completion, w', _) := run_operations env ops w in
    completion = Normal tt /\ session_coherent (store w').
Proof.
  intros env ops. induction ops as [|op rest IH]; intros w Hc.
  - cbn. split; [reflexivity | exact Hc].
  - cbn [run_operations]. unfold bind, try_catch.
    pose proof (run_operation_keeps_coherence env op w Hc) as Hop.
    destruct (run_operation env op w) as [[c1 w1] ev1].
    destruct c1 as [[]|e]; cbn.
    + specialize (IH w1 Hop).
      destruct (run_operations env rest w1) as [[c2 w2] ev2]. exact IH.
    + specialize (IH w1 Hop).
      destruct (run_operations env rest w1) as [[c2 w2] ev2]. exact IH.
Qed.

Lemma session_coherence_is_invariant_witness :
  let '(completion, w', _) :=
    run_operations (Demo.env_with Demo.degraded) Scenario.busy_day initialWorld in
  completion = Normal tt /\ session_coherent (store w').
Proof.
  apply (session_coherence_is_invariant (Demo.env_with Demo.degraded)
           Scenario.busy_day initialWorld).
  reflexivity.
Defined.

(** ** What the application shows *)






(** X25.  After a [signOut] to which the provider responded, with an
    error or without, the application shows the login form. *)
Theorem signOut_response_shows_login :
  forall (env : Env) (sb : SupabaseClient) (w : World) (reply : SignOutReply),
    supabase env = Some sb ->
    auth_signOut sb (clock w) = Fulfilled reply ->
    let '(_, w', _) := signOut env w in
    App env (store w') = Normal AuthForm.
Proof.
  intros env sb w reply Hsb Hreply. unfold signOut. rewrite Hsb.
  unfold_run. cbn. rewrite Hreply. reflexivity.
Qed.

Lemma signOut_response_shows_login_witness :
  let '(_, w', _) := signOut (Demo.env_with Demo.degraded) Demo.signed_in_world in
  App (Demo.env_with Demo.degraded) (store w') = Normal AuthForm.
Proof.
  apply (signOut_response_shows_login (Demo.env_with Demo.degraded)
           Demo.degraded Demo.signed_in_world
           {| so_error := Some Demo.unavailable |}); reflexivity.
Defined.

(** X26.  After the registered listener has handled SIGNED_OUT on a
    mounted component, the application shows the login form, whatever
    the store held and whether or not a session came with the event. *)
Theorem signed_out_event_shows_login :
  forall (env : Env) (session : option Session.t) (w : World),
    mounted w = true ->
    let '(_, w', _) := authListener env "SIGNED_OUT" session w in
    App env (store w') = Normal AuthForm.
Proof.
  intros env session [s m c] Hm. cbn in Hm. subst m. reflexivity.
Qed.

Lemma signed_out_event_shows_login_witness :
  let '(_, w', _) :=
    authListener (Demo.env_with Demo.healthy) "SIGNED_OUT"
      (Some Demo.alice_session) Demo.signed_in_world in
  App (Demo.env_with Demo.healthy) (store w') = Normal AuthForm.
Proof.
  apply (signed_out_event_shows_login (Demo.env_with Demo.healthy)
           (Some Demo.alice_session) Demo.signed_in_world).
  reflexivity.
Defined.

(** ** Teardown during the bootstrap *)

(** X27.  A bootstrap that ends torn down has written neither the
    profile cell nor loading nor initialized, also when the teardown
    came only while the profile was being fetched. *)
Theorem bootstrap_respects_teardown :
  forall (env : Env) (w : World),
    let '(_, w', _) := initializeAuth env w in
    mounted w' = false ->
    Store.profile (store w') = Store.profile (store w)
    /\ Store.loading (store w') = Store.loading (store w)
    /\ Store.initialized (store w') = Store.initialized (store w).
Proof.
  intros env [s m c]. unfold initializeAuth.
  destruct (hasSupabaseConfig env); destruct (supabase env) as [sb|];
    try solve [unfold_run; destruct m; cbn; intros; try discriminate;
               repeat split].
  unfold_run. cbn [clock].
  destruct (getSession sb c) as [[reply|e]|]; cbn [race_timeout];
    destruct m; destruct (teardown_during env c) eqn:Htd;
    repeat (cbn -[fetchProfile]; rewrite ?Htd;
            cbn -[fetchProfile]; step_coherent env Store.initial);
    repeat (cbn -[fetchProfile] in *; rewrite ?Htd); subst;
    intros; try congruence; repeat split.
Qed.

Lemma bootstrap_respects_teardown_witness :
  let '(_, w', _) :=
    initializeAuth (Scenario.env_torn_down Demo.healthy) initialWorld in
  Store.profile (store w') = None
  /\ Store.loading (store w') = true
  /\ Store.initialized (store w') = false.
Proof.
  pose proof (bootstrap_respects_teardown (Scenario.env_torn_down Demo.healthy)
                initialWorld) as H.
  destruct (initializeAuth (Scenario.env_torn_down Demo.healthy) initialWorld)
    as [[completion w'] events] eqn:E.
  apply H.
  apply (f_equal (fun x => mounted (snd (fst x)))) in E.
  vm_compute in E. symmetry. exact E.
Defined.
